(** * Keystore and authorization engine of vibecoins-mcp

    A shallow embedding of [lib/wallet.js] (the multi-user wallet module),
    of the home-directory variant of the same module (single wallet,
    migration from the legacy location), of what [lib/launcher.js] does
    up to its request to the launch API (with the listing it records
    through [lib/listings.js]) and of the server's [wallet] tool.

    The cryptographic primitives (PBKDF2, AES-256-GCM, the secp256k1 signer,
    the JSON-RPC provider, [fetch]) are not code of the repository: they are
    parameters, bundled in records with the laws the code relies on.  What
    Node does around them (UTF-8 and hex conversion of strings, the checks of
    [createDecipheriv] and [setAuthTag], the message of a failed
    authentication) is written out. *)

From Stdlib Require Import ZArith Lia List String Ascii Bool.
Import ListNotations.
Open Scope string_scope.
Open Scope Z_scope.
Set Warnings "-register-all".

(* ------------------------------------------------------------------ *)
(** ** JavaScript strings, numbers and exceptions *)

(** A computation of the code either returns a value or throws an
    exception, of which the code only ever reads [err.message]. *)
Inductive exc (A : Type) : Type :=
| Ret (a : A)
| Thr (msg : string).
Arguments Ret {A} a.
Arguments Thr {A} msg.

(** [String.prototype.includes]. *)
Fixpoint str_includes (needle hay : string) : bool :=
  String.prefix needle hay ||
  match hay with
  | EmptyString => false
  | String _ rest => str_includes needle rest
  end.

Definition chr (n : nat) : string := String (ascii_of_nat n) EmptyString.
Definition nl : string := chr 10.

Fixpoint dec_digits (fuel : nat) (n : Z) (acc : string) : string :=
  match fuel with
  | O => acc
  | S f =>
      let acc' := String (ascii_of_nat (48 + Z.to_nat (n mod 10))) acc in
      if Z.ltb n 10 then acc' else dec_digits f (n / 10) acc'
  end.

(** [BigInt.prototype.toString()] / [Number.prototype.toString()] on
    integers. *)
Definition z_to_dec (n : Z) : string :=
  let m := Z.abs n in
  let s := dec_digits (S (Z.to_nat (Z.log2 m))) m EmptyString in
  if Z.ltb n 0 then "-" ++ s else s.

(** JavaScript strings are sequences of UTF-16 code units.  The secret that
    is sealed and the password are kept at that level, because Node converts
    them to UTF-8 before the cipher sees them. *)
Definition jsstr := list Z.

Definition jsstr_of_string (s : string) : jsstr :=
  map (fun a => Z.of_nat (nat_of_ascii a)) (list_ascii_of_string s).

(** Other strings of the code (names, symbols, descriptions, addresses) are
    kept as their UTF-8 bytes.  A byte that does not continue a sequence
    (outside [0x80]-[0xBF]) starts a character: one UTF-16 code unit, or two
    (a surrogate pair) for a four-byte sequence. *)
Definition is_utf8_continuation (a : ascii) : bool :=
  Nat.leb 128 (nat_of_ascii a) && Nat.ltb (nat_of_ascii a) 192.

Definition utf16_units (a : ascii) : nat :=
  if is_utf8_continuation a then 0
  else if Nat.leb 240 (nat_of_ascii a) then 2 else 1.

(** [s.length]: the number of UTF-16 code units. *)
Fixpoint js_length (s : string) : nat :=
  match s with
  | EmptyString => 0
  | String a rest => (utf16_units a + js_length rest)%nat
  end.

(** The characters (code points) [for (const c of s)] visits, each as the
    string of its UTF-8 bytes. *)
Fixpoint utf8_chars (s : string) : list string :=
  match s with
  | EmptyString => []
  | String a rest =>
      match utf8_chars rest with
      | String b r :: cps =>
          if is_utf8_continuation b then String a (String b r) :: cps
          else String a EmptyString :: String b r :: cps
      | cps => String a EmptyString :: cps
      end
  end.

(* ------------------------------------------------------------------ *)
(** ** JSON values and JavaScript objects *)

Inductive jsval : Type :=
| JNull
| JBool (b : bool)
| JNum (n : Z)
| JStr (s : string)
| JObj (fields : list (string * jsval))
| JArr (items : list jsval)
| JFun (name : string).   (** a function found on [Object.prototype] *)

(** Properties every plain object inherits from [Object.prototype]. *)
Definition object_prototype_props : list string :=
  ["constructor"; "__proto__"; "hasOwnProperty"; "isPrototypeOf";
   "propertyIsEnumerable"; "toLocaleString"; "toString"; "valueOf";
   "__defineGetter__"; "__defineSetter__"; "__lookupGetter__";
   "__lookupSetter__"].

Fixpoint assoc_get (k : string) (fs : list (string * jsval)) : option jsval :=
  match fs with
  | [] => None
  | (k', v) :: rest => if String.eqb k k' then Some v else assoc_get k rest
  end.

Fixpoint arr_index (k : string) (items : list jsval) (i : Z) : option jsval :=
  match items with
  | [] => None
  | x :: rest => if String.eqb k (z_to_dec i) then Some x else arr_index k rest (i + 1)
  end.

Definition proto_get (k : string) : option jsval :=
  if existsb (String.eqb k) object_prototype_props then Some (JFun k) else None.

(** [o[k]]: an own property, else the prototype chain, else [undefined]
    ([None]).  Of strings, numbers and booleans only [length] of a string
    is read by the code. *)
Definition js_get (o : jsval) (k : string) : option jsval :=
  match o with
  | JObj fs =>
      match assoc_get k fs with
      | Some v => Some v
      | None => proto_get k
      end
  | JArr items =>
      if String.eqb k "length" then Some (JNum (Z.of_nat (List.length items)))
      else match arr_index k items 0 with
           | Some v => Some v
           | None => proto_get k
           end
  | JStr s =>
      if String.eqb k "length" then Some (JNum (Z.of_nat (js_length s))) else None
  | _ => None
  end.

Definition js_get_opt (o : option jsval) (k : string) : option jsval :=
  match o with Some v => js_get v k | None => None end.

(** ToBoolean, [undefined] being [None]. *)
Definition truthy (v : option jsval) : bool :=
  match v with
  | None | Some JNull => false
  | Some (JBool b) => b
  | Some (JNum n) => negb (Z.eqb n 0)
  | Some (JStr s) => negb (String.eqb s "")
  | Some (JObj _) | Some (JArr _) | Some (JFun _) => true
  end.

(** [o[k] = v] on an object literal: an existing key keeps its place. *)
Fixpoint assoc_set (k : string) (v : jsval) (fs : list (string * jsval))
  : list (string * jsval) :=
  match fs with
  | [] => [(k, v)]
  | (k', v') :: rest =>
      if String.eqb k k' then (k, v) :: rest else (k', v') :: assoc_set k v rest
  end.

Definition obj_set (o : list (string * jsval)) (k : string) (v : jsval) :=
  assoc_set k v o.

Fixpoint string_chars_props (i : Z) (s : string) : list (string * jsval) :=
  match s with
  | EmptyString => []
  | String a rest => (z_to_dec i, JStr (String a EmptyString))
                       :: string_chars_props (i + 1) rest
  end.

(** [{ ...fields, ...v }]: the own enumerable properties of [v] are copied in
    order; a string spreads its characters under their indices; [null],
    booleans and numbers add nothing. *)
Definition obj_spread (o : list (string * jsval)) (v : jsval)
  : list (string * jsval) :=
  match v with
  | JObj fs => fold_left (fun acc kv => assoc_set (fst kv) (snd kv) acc) fs o
  | JStr s =>
      fold_left (fun acc kv => assoc_set (fst kv) (snd kv) acc)
                (string_chars_props 0 s) o
  | JArr items =>
      fold_left (fun acc kv => assoc_set (fst kv) (snd kv) acc)
                (combine (map z_to_dec (map Z.of_nat (seq 0 (List.length items)))) items) o
  | _ => o
  end.

(** The result objects [{ success: false, error: e }]. *)
Definition failure (e : string) : jsval :=
  JObj [("success", JBool false); ("error", JStr e)].

Definition failure_v (e : jsval) : jsval :=
  JObj [("success", JBool false); ("error", e)].

(* ------------------------------------------------------------------ *)
(** ** Bytes, hex and UTF-8 as Node converts them *)

(** A [Buffer]: its elements are in [0, 256). *)
Definition bytes := list Z.
Definition byte_ok (b : Z) : Prop := 0 <= b < 256.
Definition bytes_ok (bs : bytes) : Prop := Forall byte_ok bs.

Definition hex_digits : list ascii :=
  list_ascii_of_string "0123456789abcdef".

Definition hex_char (d : Z) : ascii := nth (Z.to_nat d) hex_digits "0"%char.

Definition hex_val (c : ascii) : option Z :=
  let n := Z.of_nat (nat_of_ascii c) in
  if (48 <=? n) && (n <=? 57) then Some (n - 48)
  else if (97 <=? n) && (n <=? 102) then Some (n - 87)
  else if (65 <=? n) && (n <=? 70) then Some (n - 55)
  else None.

(** [buf.toString('hex')]. *)
Fixpoint hex_encode (bs : bytes) : string :=
  match bs with
  | [] => EmptyString
  | b :: rest => String (hex_char (b / 16)) (String (hex_char (b mod 16)) (hex_encode rest))
  end.

(** [Buffer.from(s, 'hex')]: pairs of hex digits, up to the first pair that
    is not one; an odd last digit is dropped. *)
Fixpoint hex_decode (s : string) : bytes :=
  match s with
  | String a (String b rest) =>
      match hex_val a, hex_val b with
      | Some x, Some y => (16 * x + y) :: hex_decode rest
      | _, _ => []
      end
  | _ => []
  end.

Definition is_high_surrogate (u : Z) : bool := (0xD800 <=? u) && (u <=? 0xDBFF).
Definition is_low_surrogate (u : Z) : bool := (0xDC00 <=? u) && (u <=? 0xDFFF).

(** The code points of a string of UTF-16 code units; an unpaired surrogate
    becomes U+FFFD, as in [Buffer.from(s, 'utf8')]. *)
Fixpoint code_points (s : jsstr) : list Z :=
  match s with
  | [] => []
  | u :: rest =>
      if is_high_surrogate u then
        match rest with
        | u2 :: rest' =>
            if is_low_surrogate u2
            then (0x10000 + (u - 0xD800) * 0x400 + (u2 - 0xDC00)) :: code_points rest'
            else 0xFFFD :: code_points rest
        | [] => [0xFFFD]
        end
      else if is_low_surrogate u then 0xFFFD :: code_points rest
      else u :: code_points rest
  end.

Definition utf8_of_cp (cp : Z) : bytes :=
  if cp <? 0x80 then [cp]
  else if cp <? 0x800 then [0xC0 + cp / 64; 0x80 + cp mod 64]
  else if cp <? 0x10000 then
    [0xE0 + cp / 4096; 0x80 + (cp / 64) mod 64; 0x80 + cp mod 64]
  else [0xF0 + cp / 262144; 0x80 + (cp / 4096) mod 64;
        0x80 + (cp / 64) mod 64; 0x80 + cp mod 64].

(** [Buffer.from(s, 'utf8')], also what [cipher.update(s, 'utf8')] and
    [pbkdf2Sync(s, ...)] feed to OpenSSL. *)
Definition utf8_encode (s : jsstr) : bytes := flat_map utf8_of_cp (code_points s).

(** The code points UTF-8 encodes, and strings of UTF-16 code units. *)
Definition scalar (cp : Z) : Prop := 0 <= cp <= 0x10FFFF /\ ~ (0xD800 <= cp <= 0xDFFF).

Definition units_ok (s : jsstr) : Prop := Forall (fun u => 0 <= u <= 0xFFFF) s.

Definition is_cont (b : Z) : bool := (0x80 <=? b) && (b <=? 0xBF).

(** The code points of UTF-8 bytes, as [buf.toString('utf8')] reads them on
    well-formed input; a byte that does not start a well-formed sequence gives
    one U+FFFD and decoding resumes at the next byte. *)
Fixpoint utf8_decode_cps (bs : bytes) : list Z :=
  match bs with
  | [] => []
  | b0 :: r1 =>
      if b0 <? 0x80 then b0 :: utf8_decode_cps r1
      else if (0xC2 <=? b0) && (b0 <=? 0xDF) then
        match r1 with
        | b1 :: r2 =>
            if is_cont b1
            then ((b0 - 0xC0) * 64 + (b1 - 0x80)) :: utf8_decode_cps r2
            else 0xFFFD :: utf8_decode_cps r1
        | [] => [0xFFFD]
        end
      else if (0xE0 <=? b0) && (b0 <=? 0xEF) then
        match r1 with
        | b1 :: b2 :: r3 =>
            let cp := (b0 - 0xE0) * 4096 + (b1 - 0x80) * 64 + (b2 - 0x80) in
            if is_cont b1 && is_cont b2 && (0x800 <=? cp)
               && negb ((0xD800 <=? cp) && (cp <=? 0xDFFF))
            then cp :: utf8_decode_cps r3
            else 0xFFFD :: utf8_decode_cps r1
        | _ => 0xFFFD :: utf8_decode_cps r1
        end
      else if (0xF0 <=? b0) && (b0 <=? 0xF4) then
        match r1 with
        | b1 :: b2 :: b3 :: r4 =>
            let cp := (b0 - 0xF0) * 262144 + (b1 - 0x80) * 4096
                      + (b2 - 0x80) * 64 + (b3 - 0x80) in
            if is_cont b1 && is_cont b2 && is_cont b3
               && (0x10000 <=? cp) && (cp <=? 0x10FFFF)
            then cp :: utf8_decode_cps r4
            else 0xFFFD :: utf8_decode_cps r1
        | _ => 0xFFFD :: utf8_decode_cps r1
        end
      else 0xFFFD :: utf8_decode_cps r1
  end.

Definition utf16_of_cp (cp : Z) : jsstr :=
  if cp <? 0x10000 then [cp]
  else [0xD800 + (cp - 0x10000) / 1024; 0xDC00 + (cp - 0x10000) mod 1024].

Definition utf8_decode (bs : bytes) : jsstr :=
  flat_map utf16_of_cp (utf8_decode_cps bs).

(** A string without unpaired surrogates. *)
Fixpoint well_formed_utf16 (s : jsstr) : bool :=
  match s with
  | [] => true
  | u :: rest =>
      (0 <=? u) && (u <=? 0xFFFF) &&
      if is_high_surrogate u then
        match rest with
        | u2 :: rest' => is_low_surrogate u2 && well_formed_utf16 rest'
        | [] => false
        end
      else negb (is_low_surrogate u) && well_formed_utf16 rest
  end.

(* ------------------------------------------------------------------ *)
(** ** The primitives the code is given *)

(** [pbkdf2Sync] and the [aes-256-gcm] cipher of Node's [crypto], with the
    law the code relies on: opening what was sealed under the same key and
    IV gives the plaintext back.  The cipher's output is bytes, and its tag
    has the GCM default length of 16 bytes. *)
Record CipherSuite : Type := {
  pbkdf2 : bytes -> bytes -> Z -> Z -> string -> bytes;
  gcm_seal : bytes -> bytes -> bytes -> bytes * bytes;   (* key, iv, plaintext -> ciphertext, tag *)
  gcm_open : bytes -> bytes -> bytes -> bytes -> option bytes; (* key, iv, tag, ciphertext *)
  gcm_open_seal : forall k iv p,
    gcm_open k iv (snd (gcm_seal k iv p)) (fst (gcm_seal k iv p)) = Some p;
  gcm_seal_bytes : forall k iv p, bytes_ok p ->
    bytes_ok (fst (gcm_seal k iv p)) /\ bytes_ok (snd (gcm_seal k iv p));
  gcm_tag_length : forall k iv p, List.length (snd (gcm_seal k iv p)) = 16%nat
}.

(** What the code gets from ethers and from the network.  Each call may
    throw; [fetch] gives [response.ok] and the outcome of [response.json()]. *)
Record Net : Type := {
  address_of_key : jsstr -> exc string;          (* new ethers.Wallet(privateKey).address *)
  sign_message : jsstr -> string -> exc string;  (* wallet.signMessage(message) *)
  get_balance : string -> exc Z;                 (* provider.getBalance(address) *)
  http : string -> option jsval -> exc (bool * exc jsval); (* fetch(url, { body }) *)
  send_value : jsstr -> string -> Z -> exc (string * Z);   (* sendTransaction + wait: hash, block *)
  call_contract : jsstr -> string -> string -> list string -> exc (string * Z);
  read_contract : string -> string -> list string -> exc Z;  (* a view function *)
  is_address : string -> bool;                   (* ethers.isAddress *)
  date_now : Z;                                  (* Date.now() *)
  iso_now : string                               (* new Date().toISOString() *)
}.

(* ------------------------------------------------------------------ *)
(** ** Files, effects and the state they live in *)

(** The text of a file is either what [JSON.stringify] wrote for a value, or
    a text [s] that [JSON.parse] rejects, kept with the message [err] of the
    [SyntaxError] it throws on that text (V8's message depends on the text:
    [Unexpected end of JSON input] for an empty file, [Unexpected token ...]
    with the offending character and position otherwise). *)
Inductive fcontent : Type :=
| FJson (v : jsval)
| FText (s : string) (err : string).

Inductive entry : Type :=
| EDir
| EFile (c : fcontent).

Inductive fsop : Type := OpRead | OpWrite | OpMkdir | OpUnlink.

(** The effects a run shows to the outside world, in order. *)
Inductive event : Type :=
| EvMkdir (path : string)
| EvWrite (path : string) (c : fcontent)
| EvUnlink (path : string)
| EvLog (line : string)                          (* console.error *)
| EvRandom (n : nat)                             (* crypto.randomBytes(n) *)
| EvGetBalance (address : string)
| EvSign (message : string)
| EvFetch (url : string) (body : option jsval)
| EvSend (to_ : string) (value : Z)
| EvCall (contract : string) (fn : string) (args : list string)
| EvRead (contract : string) (fn : string) (args : list string).

(** [st_fault op path] is the error the file system raises for [op] on
    [path], if it raises one; [st_rand] is the entropy [randomBytes] reads
    from position [st_rpos]. *)
Record st : Type := mkst {
  st_fs : list (string * entry);
  st_fault : fsop -> string -> option string;
  st_rand : nat -> Byte.byte;
  st_rpos : nat;
  st_trace : list event
}.

Definition M (A : Type) : Type := st -> exc A * st.

Definition ret {A} (a : A) : M A := fun s => (Ret a, s).
Definition throw {A} (m : string) : M A := fun s => (Thr m, s).
Definition bind {A B} (c : M A) (f : A -> M B) : M B :=
  fun s => match c s with
           | (Ret a, s') => f a s'
           | (Thr m, s') => (Thr m, s')
           end.
Definition lift {A} (e : exc A) : M A := fun s => (e, s).

Notation "x <- c ;; k" := (bind c (fun x => k))
  (at level 61, c at next level, right associativity).
Notation "c ;;; k" := (bind c (fun _ => k))
  (at level 61, right associativity).

(** [try { c } catch (err) { h(err.message) }] *)
Definition catch {A} (c : M A) (h : string -> M A) : M A :=
  fun s => match c s with
           | (Thr m, s') => h m s'
           | r => r
           end.

Definition emit (e : event) : M unit :=
  fun s => (Ret tt, mkst (st_fs s) (st_fault s) (st_rand s) (st_rpos s)
                         (st_trace s ++ [e])).

Definition set_fs (fs : list (string * entry)) : M unit :=
  fun s => (Ret tt, mkst fs (st_fault s) (st_rand s) (st_rpos s) (st_trace s)).

Fixpoint fs_get (p : string) (fs : list (string * entry)) : option entry :=
  match fs with
  | [] => None
  | (p', e) :: rest => if String.eqb p p' then Some e else fs_get p rest
  end.

Fixpoint fs_put (p : string) (e : entry) (fs : list (string * entry))
  : list (string * entry) :=
  match fs with
  | [] => [(p, e)]
  | (p', e') :: rest =>
      if String.eqb p p' then (p, e) :: rest else (p', e') :: fs_put p e rest
  end.

Fixpoint fs_del (p : string) (fs : list (string * entry)) : list (string * entry) :=
  match fs with
  | [] => []
  | (p', e') :: rest => if String.eqb p p' then fs_del p rest else (p', e') :: fs_del p rest
  end.

Definition fault (op : fsop) (p : string) : M unit :=
  fun s => match st_fault s op p with
           | Some m => (Thr m, s)
           | None => (Ret tt, s)
           end.

(** [fs.existsSync(p)]: never throws. *)
Definition existsSync (p : string) : M bool :=
  fun s => (Ret (match fs_get p (st_fs s) with Some _ => true | None => false end), s).

(** [fs.mkdirSync(p, { recursive: true, mode: 0o700 })] *)
Definition mkdirSync (p : string) : M unit :=
  fault OpMkdir p ;;; s <- (fun s => (Ret (st_fs s), s)) ;;
  set_fs (fs_put p EDir s) ;;; emit (EvMkdir p).

(** [fs.readFileSync(p, 'utf8')] *)
Definition readFileSync (p : string) : M fcontent :=
  fault OpRead p ;;; s <- (fun s => (Ret (st_fs s), s)) ;;
  match fs_get p s with
  | Some (EFile c) => ret c
  | Some EDir => throw "EISDIR: illegal operation on a directory, read"
  | None => throw ("ENOENT: no such file or directory, open '" ++ p ++ "'")
  end.

(** [fs.writeFileSync(p, c, { mode: 0o600 })] *)
Definition writeFileSync (p : string) (c : fcontent) : M unit :=
  fault OpWrite p ;;; s <- (fun s => (Ret (st_fs s), s)) ;;
  set_fs (fs_put p (EFile c) s) ;;; emit (EvWrite p c).

(** [fs.unlinkSync(p)] *)
Definition unlinkSync (p : string) : M unit :=
  fault OpUnlink p ;;; s <- (fun s => (Ret (st_fs s), s)) ;;
  match fs_get p s with
  | Some _ => set_fs (fs_del p s) ;;; emit (EvUnlink p)
  | None => throw ("ENOENT: no such file or directory, unlink '" ++ p ++ "'")
  end.

Definition console_error (line : string) : M unit := emit (EvLog line).

(** [JSON.parse(text)] *)
Definition json_parse (c : fcontent) : exc jsval :=
  match c with
  | FJson v => Ret v
  | FText _ err => Thr err
  end.

(** [crypto.randomBytes(n)] *)
Definition randomBytes (n : nat) : M bytes :=
  fun s =>
    (Ret (map (fun i => Z.of_N (Byte.to_N (st_rand s (st_rpos s + i)))) (seq 0 n)),
     mkst (st_fs s) (st_fault s) (st_rand s) (st_rpos s + n)
          (st_trace s ++ [EvRandom n])).

Definition q : string := chr 34.

(** [o.k], where [o] may be [undefined] ([None]). *)
Definition prop (o : option jsval) (k : string) : exc (option jsval) :=
  match o with
  | None => Thr ("Cannot read properties of undefined (reading '" ++ k ++ "')")
  | Some JNull => Thr ("Cannot read properties of null (reading '" ++ k ++ "')")
  | Some v => Ret (js_get v k)
  end.

(** A property whose value is [undefined] is left out, as [JSON.stringify]
    leaves it out of the reply. *)
Definition opt_field (k : string) (v : option jsval) : list (string * jsval) :=
  match v with Some x => [(k, x)] | None => [] end.

(* ------------------------------------------------------------------ *)
(** ** The envelope cipher ([encrypt] / [decrypt]) *)

Section Envelope.
Variable C : CipherSuite.

Definition ALGORITHM := "aes-256-gcm".
Definition KEY_LENGTH := 32.
Definition IV_LENGTH := 16%nat.
Definition SALT_LENGTH := 32%nat.
Definition ITERATIONS := 100000.

(** [deriveKey(password, salt)]: the password reaches PBKDF2 as UTF-8. *)
Definition deriveKey (password : jsstr) (salt : bytes) : bytes :=
  pbkdf2 C (utf8_encode password) salt ITERATIONS KEY_LENGTH "sha256".

(** [encrypt(text, password)] *)
Definition encrypt (text password : jsstr) : M jsval :=
  salt <- randomBytes SALT_LENGTH ;;
  iv <- randomBytes IV_LENGTH ;;
  let key := deriveKey password salt in
  let sealed := gcm_seal C key iv (utf8_encode text) in
  ret (JObj [("salt", JStr (hex_encode salt));
             ("iv", JStr (hex_encode iv));
             ("tag", JStr (hex_encode (snd sealed)));
             ("encrypted", JStr (hex_encode (fst sealed)))]).

(** [Buffer.from(v, 'hex')]: the stored fields are strings; for a missing
    one ([undefined]) Node throws this [TypeError]. *)
Definition buffer_from_hex (v : option jsval) : exc bytes :=
  match v with
  | Some (JStr s) => Ret (hex_decode s)
  | _ => Thr "The first argument must be of type string or an instance of Buffer, ArrayBuffer, or Array or an Array-like Object. Received undefined"
  end.

(** The tag lengths [decipher.setAuthTag] accepts for GCM. *)
Definition valid_gcm_tag_length (n : nat) : bool :=
  existsb (Nat.eqb n) [4; 8; 12; 13; 14; 15; 16]%nat.

Definition then_ {A B} (e : exc A) (f : A -> exc B) : exc B :=
  match e with Ret a => f a | Thr m => Thr m end.

(** [decrypt(encryptedData, password)] *)
Definition decrypt (encryptedData : option jsval) (password : jsstr) : exc jsstr :=
  then_ (prop encryptedData "salt") (fun vs =>
  then_ (buffer_from_hex vs) (fun salt =>
  then_ (prop encryptedData "iv") (fun viv =>
  then_ (buffer_from_hex viv) (fun iv =>
  then_ (prop encryptedData "tag") (fun vt =>
  then_ (buffer_from_hex vt) (fun tag =>
  let key := deriveKey password salt in
  (* createDecipheriv *)
  if Nat.eqb (List.length iv) 0 then Thr "Invalid initialization vector" else
  (* decipher.setAuthTag *)
  if negb (valid_gcm_tag_length (List.length tag))
  then Thr ("Invalid authentication tag length: " ++ z_to_dec (Z.of_nat (List.length tag)))
  else
  then_ (prop encryptedData "encrypted") (fun ve =>
  match ve with
  | Some (JStr e) =>
      (* decipher.update(e, 'hex', 'utf8') + decipher.final('utf8') *)
      match gcm_open C key iv tag (hex_decode e) with
      | Some plain => Ret (utf8_decode plain)
      | None => Thr "Unsupported state or unable to authenticate data"
      end
  | _ => Thr ("The " ++ q ++ "data" ++ q ++ " argument must be of type string or an instance of Buffer, TypedArray, or DataView. Received undefined")
  end))))))).

End Envelope.

(* ------------------------------------------------------------------ *)
(** ** [ethers.parseEther] and [ethers.formatEther] (18 decimals, 512-bit
    fixed-point format) *)

Definition is_digit (c : ascii) : bool :=
  let n := nat_of_ascii c in Nat.leb 48 n && Nat.leb n 57.

Fixpoint take_digits (cs : list ascii) : list ascii * list ascii :=
  match cs with
  | c :: rest =>
      if is_digit c then let (d, r) := take_digits rest in (c :: d, r) else ([], cs)
  | [] => ([], [])
  end.

Definition digits_value (cs : list ascii) : Z :=
  fold_left (fun acc c => 10 * acc + (Z.of_nat (nat_of_ascii c) - 48)) cs 0.

(** The match of the regular expression of [FixedNumber.fromString]: an
    optional minus, digits, an optional point, digits, and nothing else. *)
Definition match_fixed (s : string) : option (bool * list ascii * list ascii) :=
  let cs := list_ascii_of_string s in
  let '(neg, cs1) := match cs with
                     | "-"%char :: r => (true, r)
                     | _ => (false, cs)
                     end in
  let '(whole, r2) := take_digits cs1 in
  let r3 := match r2 with "."%char :: r => r | _ => r2 end in
  let '(dec, r4) := take_digits r3 in
  match r4 with [] => Some (neg, whole, dec) | _ => None end.

Definition invalid_fixed (s : string) : string :=
  "invalid FixedNumber string value (argument=" ++ q ++ "value" ++ q
  ++ ", value=" ++ q ++ s ++ q ++ ", code=INVALID_ARGUMENT)".

(** [ethers.parseEther(s)] *)
Definition parseEther (s : string) : exc Z :=
  match match_fixed s with
  | None => Thr (invalid_fixed s)
  | Some (neg, whole, dec) =>
      if Nat.eqb (List.length whole + List.length dec) 0 then Thr (invalid_fixed s)
      else if existsb (fun c => negb (Ascii.eqb c "0"%char)) (skipn 18 dec)
      then Thr "too many decimals for format"
      else
        let v := digits_value (app whole (firstn 18 (app dec (repeat "0"%char 18)))) in
        let v := if neg then - v else v in
        if (v <? - 2 ^ 511) || (2 ^ 511 <=? v) then Thr "overflow" else Ret v
  end.

Fixpoint trim_leading_zeros (cs : list ascii) : list ascii :=
  match cs with
  | "0"%char :: ((c :: _) as rest) =>
      if Ascii.eqb c "."%char then cs else trim_leading_zeros rest
  | _ => cs
  end.

(** [ethers.formatEther(wei)]: the digits padded to 19, the point inserted
    before the last 18, zeros trimmed on both sides but one kept. *)
Definition formatEther (wei : Z) : string :=
  let digits := list_ascii_of_string (z_to_dec (Z.abs wei)) in
  let padded := app (repeat "0"%char (19 - List.length digits)) digits in
  let whole := firstn (List.length padded - 18) padded in
  let frac := skipn (List.length padded - 18) padded in
  let whole' := trim_leading_zeros (app whole ["."%char]) in
  let frac' := rev (trim_leading_zeros (app (rev frac) ["."%char])) in
  let body := string_of_list_ascii (app whole' (tl frac')) in
  if wei <? 0 then "-" ++ body else body.

(* ------------------------------------------------------------------ *)
(** ** Effects on the network, logged in the trace *)

Section NetEffects.
Variable N : Net.

Definition signM (key : jsstr) (message : string) : M string :=
  emit (EvSign message) ;;; lift (sign_message N key message).

Definition balanceM (address : string) : M Z :=
  emit (EvGetBalance address) ;;; lift (get_balance N address).

Definition fetchM (url : string) (body : option jsval) : M (bool * exc jsval) :=
  emit (EvFetch url body) ;;; lift (http N url body).

Definition sendM (key : jsstr) (to_ : string) (value : Z) : M (string * Z) :=
  emit (EvSend to_ value) ;;; lift (send_value N key to_ value).

Definition callM (key : jsstr) (contract fn : string) (args : list string)
  : M (string * Z) :=
  emit (EvCall contract fn args) ;;; lift (call_contract N key contract fn args).

Definition readM (contract fn : string) (args : list string) : M Z :=
  emit (EvRead contract fn args) ;;; lift (read_contract N contract fn args).

End NetEffects.

(** The [catch] block shared by [signMessage], [transfer] and
    [collectFees]. *)
Definition invalid_password_or (prefix msg : string) : jsval :=
  if str_includes "Unsupported state" msg || str_includes "auth" msg
  then failure "Invalid password"
  else failure (prefix ++ msg).

(** [o[k] = v] in strict-mode code. *)
Definition js_set (o : jsval) (k : string) (v : jsval) : exc jsval :=
  match o with
  | JObj fs => Ret (JObj (obj_set fs k v))
  | JNull => Thr ("Cannot set properties of null (setting '" ++ k ++ "')")
  | _ => Thr ("Cannot create property '" ++ k ++ "' on a primitive value")
  end.

(** A value as a template literal prints it; an array is joined with
    commas, its [null] elements printed empty. *)
Fixpoint js_string (v : jsval) : string :=
  match v with
  | JStr s => s
  | JNum n => z_to_dec n
  | JBool true => "true"
  | JBool false => "false"
  | JNull => "null"
  | JObj _ => "[object Object]"
  | JArr items =>
      let fix join (l : list jsval) : string :=
        match l with
        | [] => ""
        | [x] => match x with JNull => "" | _ => js_string x end
        | x :: rest => match x with JNull => "" | _ => js_string x end ++ "," ++ join rest
        end in join items
  | JFun name => "function " ++ name ++ "() { [native code] }"
  end.

Definition js_string_opt (v : option jsval) : string :=
  match v with Some x => js_string x | None => "undefined" end.

Definition CREATE_WARNING : string :=
  "CRITICAL: Your password is the ONLY way to access this wallet. There is NO recovery option. If you lose your password, your wallet and all funds are permanently lost!".

(* ------------------------------------------------------------------ *)
(** ** [lib/wallet.js]: one record per user id in [data/wallets.json] *)

(** The failure [getWalletAddress] gives when there is no wallet. *)
Definition NO_WALLET_CREATE : string :=
  "No wallet found. Create one first with action=" ++ q ++ "create" ++ q
  ++ " and a password. This wallet is where your fees from coin launches will be sent. Choose a password you will NEVER forget - there is no recovery option!".

(** The argument of [provider.getBalance(a)]: a string is passed on; for
    anything else ethers throws, with the message [err v]. *)
Definition address_arg (err : option jsval -> string) (v : option jsval) : exc string :=
  match v with Some (JStr a) => Ret a | _ => Thr (err v) end.

Module Lib.
Section Ops.
Variable C : CipherSuite.
Variable N : Net.
Variable random_wallet : bytes -> jsstr * string.

Definition DATA_DIR := "pkg/data".
Definition WALLETS_FILE := "pkg/data/wallets.json".

Definition ensureDataDir : M unit :=
  e <- existsSync DATA_DIR ;;
  if e then ret tt else mkdirSync DATA_DIR.

Definition loadWallets : M jsval :=
  ensureDataDir ;;;
  e <- existsSync WALLETS_FILE ;;
  if negb e then ret (JObj [])
  else data <- readFileSync WALLETS_FILE ;; lift (json_parse data).

Definition saveWallets (wallets : jsval) : M unit :=
  ensureDataDir ;;; writeFileSync WALLETS_FILE (FJson wallets).

Definition createWallet (userId : string) (password : jsstr) : M jsval :=
  wallets <- loadWallets ;;
  existing <- lift (prop (Some wallets) userId) ;;
  if truthy existing then
    ret (failure ("Wallet already exists for this user. Use " ++ q ++ "get" ++ q
                  ++ " to retrieve it."))
  else
    entropy <- randomBytes 16 ;;
    let wallet := random_wallet entropy in
    encryptedKey <- encrypt C (fst wallet) password ;;
    wallets' <- lift (js_set wallets userId
                        (JObj [("address", JStr (snd wallet));
                               ("encryptedKey", encryptedKey);
                               ("createdAt", JStr (iso_now N))])) ;;
    saveWallets wallets' ;;;
    ret (JObj [("success", JBool true);
               ("address", JStr (snd wallet));
               ("message", JStr "Wallet created! This is where your fees from coin launches will be sent.");
               ("warning", JStr CREATE_WARNING)]).

Definition hasWallet (userId : string) : M bool :=
  wallets <- loadWallets ;;
  w <- lift (prop (Some wallets) userId) ;;
  ret (truthy w).

(** [getWalletAddress(userId)] *)
Definition getWalletAddress (userId : string) : M jsval :=
  wallets <- loadWallets ;;
  w <- lift (prop (Some wallets) userId) ;;
  if negb (truthy w) then ret (failure NO_WALLET_CREATE) else
  address <- lift (prop w "address") ;;
  createdAt <- lift (prop w "createdAt") ;;
  ret (JObj ([("success", JBool true)] ++ opt_field "address" address
             ++ opt_field "createdAt" createdAt
             ++ [("note", JStr "This is where your fees from coin launches are sent.")])%list).

(** The message ethers throws for an argument of [getBalance] that is not a
    string. *)
Variable address_arg_error : option jsval -> string.

(** [getBalance(userId, rpcUrl)]: the provider of [rpcUrl] is [N]. *)
Definition getBalance (userId : string) : M jsval :=
  wallets <- loadWallets ;;
  w <- lift (prop (Some wallets) userId) ;;
  if negb (truthy w) then ret (failure "No wallet found") else
  catch (
    address <- lift (prop w "address") ;;
    a <- lift (address_arg address_arg_error address) ;;
    balance <- balanceM N a ;;
    ret (JObj [("success", JBool true); ("address", JStr a);
               ("balance", JStr (formatEther balance)); ("unit", JStr "ETH")]))
  (fun m => ret (failure ("Failed to get balance: " ++ m))).

(** The [try] block of [signMessage], on the user's record [w]. *)
Definition signMessage_try (w : option jsval) (password : jsstr) (message : string)
  : M jsval :=
  ek <- lift (prop w "encryptedKey") ;;
  privateKey <- lift (decrypt C ek password) ;;
  address <- lift (address_of_key N privateKey) ;;
  signature <- signM N privateKey message ;;
  ret (JObj [("success", JBool true); ("address", JStr address);
             ("message", JStr message); ("signature", JStr signature)]).

Definition signMessage (userId : string) (password : jsstr) (message : string)
  : M jsval :=
  wallets <- loadWallets ;;
  w <- lift (prop (Some wallets) userId) ;;
  if negb (truthy w) then ret (failure "No wallet found") else
  catch (signMessage_try w password message)
        (fun m => ret (invalid_password_or "Signing failed: " m)).

(** [getDecryptedWallet]: the unlocked wallet (its key and address), or the
    failure object. *)
Definition getDecryptedWallet (userId : string) (password : jsstr)
  : M ((jsstr * string) + jsval) :=
  wallets <- loadWallets ;;
  w <- lift (prop (Some wallets) userId) ;;
  if negb (truthy w) then ret (inr (failure "No wallet found")) else
  catch (
    ek <- lift (prop w "encryptedKey") ;;
    privateKey <- lift (decrypt C ek password) ;;
    address <- lift (address_of_key N privateKey) ;;
    ret (inl (privateKey, address)))
  (fun _ => ret (inr (failure "Invalid password"))).

(** The [try] block of [transfer]. *)
Definition transfer_try (w : option jsval) (password : jsstr) (toAddress amount : string)
  : M jsval :=
  ek <- lift (prop w "encryptedKey") ;;
  privateKey <- lift (decrypt C ek password) ;;
  address <- lift (address_of_key N privateKey) ;;
  balance <- balanceM N address ;;
  amountWei <- lift (parseEther amount) ;;
  if balance <? amountWei then
    ret (failure ("Insufficient balance. You have " ++ formatEther balance
                  ++ " ETH but tried to send " ++ amount ++ " ETH"))
  else
    receipt <- sendM N privateKey toAddress amountWei ;;
    ret (JObj [("success", JBool true); ("transactionHash", JStr (fst receipt));
               ("from", JStr address); ("to", JStr toAddress);
               ("amount", JStr amount); ("unit", JStr "ETH");
               ("blockNumber", JNum (snd receipt))]).

Definition transfer (userId : string) (password : jsstr) (toAddress amount : string)
  : M jsval :=
  wallets <- loadWallets ;;
  w <- lift (prop (Some wallets) userId) ;;
  if negb (truthy w) then ret (failure "No wallet found") else
  if negb (is_address N toAddress) then ret (failure "Invalid destination address") else
  catch (transfer_try w password toAddress amount)
        (fun m => ret (invalid_password_or "Transfer failed: " m)).

(** The target of [new ethers.Contract(target, abi, runner)]. *)
Definition contract_target (v : option jsval) : exc string :=
  match v with
  | Some (JStr s) => Ret s
  | _ => Thr "invalid value for Contract target"
  end.

(** The [try] block of [collectFees]. *)
Definition collectFees_try (w : option jsval) (password : jsstr) (apiBaseUrl : string)
  : M jsval :=
  ek <- lift (prop w "encryptedKey") ;;
  privateKey <- lift (decrypt C ek password) ;;
  address <- lift (address_of_key N privateKey) ;;
  balance <- balanceM N address ;;
  if balance =? 0 then
    let message := "Collect fees for " ++ address ++ nl ++ "Timestamp: "
                   ++ z_to_dec (date_now N) in
    signature <- signM N privateKey message ;;
    response <- fetchM N (apiBaseUrl ++ "/api/collect-fees")
                  (Some (JObj [("walletAddress", JStr address);
                               ("message", JStr message);
                               ("signature", JStr signature)])) ;;
    result <- lift (snd response) ;;
    if negb (fst response) then
      err <- lift (prop (Some result) "error") ;;
      ret (failure_v (if truthy err
                      then match err with Some e => e | None => JNull end
                      else JStr "API request failed"))
    else
      ret (JObj (obj_spread
                   [("success", JBool true); ("method", JStr "api");
                    ("message", JStr "Fees collected via API (we paid the gas for you)")]
                   result))
  else
    configResponse <- fetchM N (apiBaseUrl ++ "/api/config") None ;;
    if negb (fst configResponse) then
      ret (failure "Failed to fetch contract config from API")
    else
      config <- lift (snd configResponse) ;;
      feeHookAddress <- lift (prop (Some config) "feeHookAddress") ;;
      if negb (truthy feeHookAddress) then
        ret (failure "Fee hook contract address not configured")
      else
        target <- lift (contract_target feeHookAddress) ;;
        receipt <- callM N privateKey target "claimFees" [address] ;;
        ret (JObj [("success", JBool true); ("method", JStr "direct");
                   ("message", JStr "Fees collected directly from contract (you paid gas)");
                   ("transactionHash", JStr (fst receipt));
                   ("blockNumber", JNum (snd receipt))]).

Definition collectFees (userId : string) (password : jsstr) (apiBaseUrl : string)
  : M jsval :=
  wallets <- loadWallets ;;
  w <- lift (prop (Some wallets) userId) ;;
  if negb (truthy w) then ret (failure "No wallet found") else
  catch (collectFees_try w password apiBaseUrl)
        (fun m => ret (invalid_password_or "Fee collection failed: " m)).

End Ops.
End Lib.

(* ------------------------------------------------------------------ *)
(** ** [lib/listings.js]: the listing [launchCoin] records before the request *)

Module Listings.
Section Store.
Variable N : Net.
(** [crypto.randomUUID()] *)
Variable randomUUID : string.

Definition DATA_DIR := "pkg/data".

Definition ensureDataDir : M unit :=
  e <- existsSync DATA_DIR ;;
  if e then ret tt else mkdirSync DATA_DIR.








End Store.
End Listings.

(* ------------------------------------------------------------------ *)
(** ** [lib/launcher.js]: the request [launchCoin] sends to the launch API *)

Module Launcher.
Section Launch.
Variable C : CipherSuite.
Variable N : Net.
Variable API_BASE_URL : string.
(** [crypto.randomUUID()], drawn by [addListing] *)
Variable randomUUID : string.




(** [getApiStatus()]: [{ available: true, ...result }] for any reply whose
    body parses; the fallback object when the request or the parse throws. *)
Definition getApiStatus : M jsval :=
  catch (
    response <- fetchM N (API_BASE_URL ++ "/api/status") None ;;
    result <- lift (snd response) ;;
    ret (JObj (obj_spread [("available", JBool true)] result)))
  (fun _ => ret (JObj [("available", JBool false);
                       ("message", JStr "Deployment API not available. Launches will run in stub mode.");
                       ("apiUrl", JStr API_BASE_URL)])).

End Launch.
End Launcher.


(* ------------------------------------------------------------------ *)
(** ** The home-directory variant: one wallet in [~/.vibecoin/wallet.json] *)

Module Home.
Section Ops.
Variable C : CipherSuite.
Variable N : Net.
Variable random_wallet : bytes -> jsstr * string.

Definition DATA_DIR := "~/.vibecoin".
Definition WALLET_FILE := "~/.vibecoin/wallet.json".
Definition LEGACY_DATA_DIR := "pkg/data".
Definition LEGACY_WALLET_FILE := "pkg/data/wallet.json".

Definition migrateWalletIfNeeded : M unit :=
  e <- existsSync WALLET_FILE ;;
  if e then ret tt else
  l <- existsSync LEGACY_WALLET_FILE ;;
  if l then
    catch (
      d <- existsSync DATA_DIR ;;
      (if d then ret tt else mkdirSync DATA_DIR) ;;;
      walletData <- readFileSync LEGACY_WALLET_FILE ;;
      writeFileSync WALLET_FILE walletData ;;;
      unlinkSync LEGACY_WALLET_FILE ;;;
      console_error "[vibecoin] Migrated wallet to ~/.vibecoin/wallet.json")
    (fun m => console_error ("[vibecoin] Failed to migrate wallet: " ++ m))
  else ret tt.

Definition ensureDataDir : M unit :=
  e <- existsSync DATA_DIR ;;
  if e then ret tt else mkdirSync DATA_DIR.

Definition loadWallet : M jsval :=
  ensureDataDir ;;;
  e <- existsSync WALLET_FILE ;;
  if negb e then ret JNull
  else data <- readFileSync WALLET_FILE ;; lift (json_parse data).

Definition saveWallet (wallet : jsval) : M unit :=
  ensureDataDir ;;; writeFileSync WALLET_FILE (FJson wallet).

Definition createWallet (password : jsstr) : M jsval :=
  existing <- loadWallet ;;
  if truthy (Some existing) then
    address <- lift (prop (Some existing) "address") ;;
    ret (JObj ([("success", JBool false);
                ("error", JStr ("Wallet already exists. Use " ++ q ++ "get" ++ q
                                ++ " to retrieve it."))]
               ++ opt_field "address" address)%list)
  else
    entropy <- randomBytes 16 ;;
    let wallet := random_wallet entropy in
    encryptedKey <- encrypt C (fst wallet) password ;;
    saveWallet (JObj [("address", JStr (snd wallet));
                      ("encryptedKey", encryptedKey);
                      ("createdAt", JStr (iso_now N))]) ;;;
    ret (JObj [("success", JBool true);
               ("address", JStr (snd wallet));
               ("message", JStr "Wallet created! This is where your fees from coin launches will be sent.");
               ("warning", JStr CREATE_WARNING)]).

Definition signMessage (password : jsstr) (message : string) : M jsval :=
  walletData <- loadWallet ;;
  if negb (truthy (Some walletData)) then ret (failure "No wallet found") else
  catch (
    ek <- lift (prop (Some walletData) "encryptedKey") ;;
    privateKey <- lift (decrypt C ek password) ;;
    address <- lift (address_of_key N privateKey) ;;
    signature <- signM N privateKey message ;;
    ret (JObj [("success", JBool true); ("address", JStr address);
               ("message", JStr message); ("signature", JStr signature)]))
  (fun m => ret (invalid_password_or "Signing failed: " m)).

(** [getWalletAddress()] *)
Definition getWalletAddress : M jsval :=
  wallet <- loadWallet ;;
  if negb (truthy (Some wallet)) then ret (failure NO_WALLET_CREATE) else
  address <- lift (prop (Some wallet) "address") ;;
  createdAt <- lift (prop (Some wallet) "createdAt") ;;
  ret (JObj ([("success", JBool true)] ++ opt_field "address" address
             ++ opt_field "createdAt" createdAt
             ++ [("note", JStr "This is where your fees from coin launches are sent.")])%list).

Variable address_arg_error : option jsval -> string.

(** [getBalance(rpcUrl)] *)
Definition getBalance : M jsval :=
  wallet <- loadWallet ;;
  if negb (truthy (Some wallet)) then ret (failure "No wallet found") else
  catch (
    address <- lift (prop (Some wallet) "address") ;;
    a <- lift (address_arg address_arg_error address) ;;
    balance <- balanceM N a ;;
    ret (JObj [("success", JBool true); ("address", JStr a);
               ("balance", JStr (formatEther balance)); ("unit", JStr "ETH")]))
  (fun m => ret (failure ("Failed to get balance: " ++ m))).

(** [getDecryptedWallet(password)] *)
Definition getDecryptedWallet (password : jsstr) : M ((jsstr * string) + jsval) :=
  walletData <- loadWallet ;;
  if negb (truthy (Some walletData)) then ret (inr (failure "No wallet found")) else
  catch (
    ek <- lift (prop (Some walletData) "encryptedKey") ;;
    privateKey <- lift (decrypt C ek password) ;;
    address <- lift (address_of_key N privateKey) ;;
    ret (inl (privateKey, address)))
  (fun _ => ret (inr (failure "Invalid password"))).

(** [hasWallet()]: [loadWallet() !== null]. *)
Definition hasWallet : M bool :=
  w <- loadWallet ;;
  ret (match w with JNull => false | _ => true end).

(** [transfer(password, toAddress, amount, rpcUrl)]: its [try] block is the
    one of [lib/wallet.js], on the single record. *)
Definition transfer (password : jsstr) (toAddress amount : string) : M jsval :=
  walletData <- loadWallet ;;
  if negb (truthy (Some walletData)) then ret (failure "No wallet found") else
  if negb (is_address N toAddress) then ret (failure "Invalid destination address") else
  catch (Lib.transfer_try C N (Some walletData) password toAddress amount)
        (fun m => ret (invalid_password_or "Transfer failed: " m)).

(** [ethers.keccak256(AbiCoder.encode([...], [currency0, currency1, fee,
    tickSpacing, hooks]))]: throws on components that do not encode. *)
Variable encode_pool_key : list (option jsval) -> exc string.
(** [process.env.HOOK_ADDRESS] *)
Variable HOOK_ADDRESS_ENV : option string.

Definition hookAddress : string :=
  match HOOK_ADDRESS_ENV with
  | Some h => if String.eqb h "" then "0xd6C6d48e8ff38DD7F242E34442FBdaA10eCF7A44" else h
  | None => "0xd6C6d48e8ff38DD7F242E34442FBdaA10eCF7A44"
  end.

Definition lower_ascii (a : ascii) : ascii :=
  let n := nat_of_ascii a in
  if Nat.leb 65 n && Nat.leb n 90 then ascii_of_nat (n + 32) else a.

(** [String.prototype.toLowerCase] on ASCII. *)
Fixpoint toLowerCase (s : string) : string :=
  match s with
  | EmptyString => EmptyString
  | String a rest => String (lower_ascii a) (toLowerCase rest)
  end.

(** The GraphQL query of the tokens a creator launched (whitespace aside). *)
Definition TOKENS_QUERY : string :=
  "query GetUserTokens($creator: String!) { tokens(where: { creator: $creator } limit: 100) { items { id name symbol poolCurrency0 poolCurrency1 poolFee poolTickSpacing poolHooks totalEthFeesAccumulated totalTokenFeesAccumulated } } }".

(** [computePoolId(token)] *)
Definition computePoolId (token : jsval) : exc string :=
  then_ (prop (Some token) "poolCurrency0") (fun c0 =>
  then_ (prop (Some token) "poolCurrency1") (fun c1 =>
  then_ (prop (Some token) "poolFee") (fun fee =>
  then_ (prop (Some token) "poolTickSpacing") (fun ts =>
  then_ (prop (Some token) "poolHooks") (fun hooks =>
  encode_pool_key [c0; c1; fee; ts; hooks]))))).

(** [a?.k] *)
Definition opt_chain (v : option jsval) (k : string) : option jsval :=
  match v with
  | None | Some JNull => None
  | Some x => js_get x k
  end.

(** The elements [for (const x of v)] visits. *)
Definition iterate (v : option jsval) : exc (list jsval) :=
  match v with
  | Some (JArr items) => Ret items
  | Some (JStr s) => Ret (map JStr (utf8_chars s))
  | _ => Thr "tokens is not iterable"
  end.

Definition MIN_FEE_COLLECTION : Z := 100000000000000000.

Definition token_fields (token : jsval) (poolId : string) : list (string * jsval) :=
  ([("poolId", JStr poolId)] ++ opt_field "tokenAddress" (js_get token "id")
   ++ opt_field "tokenName" (js_get token "name")
   ++ opt_field "tokenSymbol" (js_get token "symbol"))%list.

(** One turn of the loop over the creator's tokens. *)
Definition collect_token (privateKey : jsstr) (token : jsval) : M jsval :=
  poolId <- lift (computePoolId token) ;;
  catch (
    ethFees <- readM N hookAddress "getPoolFees" [poolId] ;;
    tokenFees <- readM N hookAddress "getPoolTokenFees" [poolId] ;;
    if (ethFees <? MIN_FEE_COLLECTION) && (tokenFees =? 0) then
      ret (JObj (token_fields token poolId
                 ++ [("status", JStr "skipped");
                     ("reason", JStr ("Insufficient fees: " ++ formatEther ethFees
                                      ++ " ETH (minimum 0.1 ETH required)"))])%list)
    else
      receipt <- callM N privateKey hookAddress "collectFees" [poolId] ;;
      ret (JObj (token_fields token poolId
                 ++ [("status", JStr "collected");
                     ("transactionHash", JStr (fst receipt));
                     ("blockNumber", JNum (snd receipt));
                     ("ethFees", JStr (formatEther ethFees));
                     ("tokenFeesPending", JStr (formatEther tokenFees))])%list))
  (fun m => ret (JObj (token_fields token poolId
                       ++ [("status", JStr "error"); ("error", JStr m)])%list)).

Fixpoint collect_tokens (privateKey : jsstr) (tokens : list jsval) : M (list jsval) :=
  match tokens with
  | [] => ret []
  | t :: rest =>
      r <- collect_token privateKey t ;;
      rs <- collect_tokens privateKey rest ;;
      ret (r :: rs)
  end.

Definition has_status (st : string) (r : jsval) : bool :=
  match js_get r "status" with Some (JStr s) => String.eqb s st | _ => false end.

Definition collectFees (password : jsstr) (graphqlUrl : string) : M jsval :=
  walletData <- loadWallet ;;
  if negb (truthy (Some walletData)) then ret (failure "No wallet found") else
  catch (
    ek <- lift (prop (Some walletData) "encryptedKey") ;;
    privateKey <- lift (decrypt C ek password) ;;
    address <- lift (address_of_key N privateKey) ;;
    let creatorAddress := toLowerCase address in
    graphqlResponse <- fetchM N graphqlUrl
      (Some (JObj [("query", JStr TOKENS_QUERY);
                   ("variables", JObj [("creator", JStr creatorAddress)])])) ;;
    if negb (fst graphqlResponse) then
      ret (failure "Failed to fetch token data from GraphQL")
    else
      graphqlResult <- lift (snd graphqlResponse) ;;
      errors <- lift (prop (Some graphqlResult) "errors") ;;
      if truthy errors then
        first <- lift (prop errors "0") ;;
        m <- lift (prop first "message") ;;
        ret (failure ("GraphQL error: " ++ js_string_opt m))
      else
        let items := opt_chain (opt_chain (js_get graphqlResult "data") "tokens") "items" in
        let tokens := if truthy items then items else Some (JArr []) in
        match js_get_opt tokens "length" with
        | Some (JNum 0) =>
            ret (failure "No tokens found for this wallet. Launch a token first to earn fees.")
        | _ =>
            ts <- lift (iterate tokens) ;;
            results <- collect_tokens privateKey ts ;;
            ret (JObj [("success", JBool true);
                       ("message", JStr ("Processed " ++ js_string_opt (js_get_opt tokens "length")
                                         ++ " token(s)"));
                       ("summary", JObj [("collected", JNum (Z.of_nat (List.length (filter (has_status "collected") results))));
                                         ("skipped", JNum (Z.of_nat (List.length (filter (has_status "skipped") results))));
                                         ("errors", JNum (Z.of_nat (List.length (filter (has_status "error") results))))]);
                       ("results", JArr results);
                       ("note", JStr "Fees require minimum 0.1 ETH to collect. Collector receives 0.002 ETH reward, rest split between platform and creator.")])
        end)
  (fun m => ret (invalid_password_or "Fee collection failed: " m)).

End Ops.
End Home.

(* ------------------------------------------------------------------ *)
(** ** The server's [wallet] tool, on [lib/wallet.js] *)

Module Server.
Section Tool.
Variable C : CipherSuite.
Variable N : Net.
Variable random_wallet : bytes -> jsstr * string.
Variable address_arg_error : option jsval -> string.
Variable API_BASE_URL : string.

Definition PASSWORD_REQUIRED_CREATE : string :=
  "Password required to create wallet. This password encrypts your wallet where fees will be sent. IMPORTANT: Choose a password you will NEVER forget - there is NO recovery option. If you lose your password, your wallet and funds are gone forever!".

(** The warning added to a successful transfer; it opens with U+26A0 U+FE0F,
    written as its UTF-8 bytes. *)
Definition TRANSFER_WARNING : string :=
  chr 226 ++ chr 154 ++ chr 160 ++ chr 239 ++ chr 184 ++ chr 143
  ++ " This transfer is IRREVERSIBLE. The funds have been sent and cannot be recovered.".

(** [!s] for an optional string argument. *)
Definition missing (v : option string) : bool :=
  match v with Some s => String.eqb s "" | None => true end.

(** The [wallet] case of the [CallToolRequest] handler: the object whose
    [JSON.stringify] is the reply's text, and the reply's [isError].  The
    handler's outer [catch] turns an exception into [{ error: message }].
    [userId] is the property key the argument converts to; a missing
    [password] is [None]. *)
Definition wallet_tool (action userId : string) (password : option jsstr)
  (toAddress amount : option string) : M (jsval * bool) :=
  catch (
    if String.eqb action "create" then
      match password with
      | None | Some [] => ret (failure PASSWORD_REQUIRED_CREATE, true)
      | Some pw =>
          result <- Lib.createWallet C N random_wallet userId pw ;;
          ret (result, false)
      end
    else if String.eqb action "get" then
      result <- Lib.getWalletAddress userId ;;
      ret (result, false)
    else if String.eqb action "balance" then
      result <- Lib.getBalance N address_arg_error userId ;;
      ret (result, false)
    else if String.eqb action "transfer" then
      match password with
      | None | Some [] => ret (failure "Password required to transfer funds", true)
      | Some pw =>
          if missing toAddress || missing amount then
            ret (failure "toAddress and amount are required for transfer", true)
          else
            let t := match toAddress with Some x => x | None => "" end in
            let a := match amount with Some x => x | None => "" end in
            transferResult <- Lib.transfer C N userId pw t a ;;
            if truthy (js_get transferResult "success") then
              r <- lift (js_set transferResult "warning" (JStr TRANSFER_WARNING)) ;;
              ret (r, false)
            else ret (transferResult, false)
      end
    else if String.eqb action "collect-fees" then
      match password with
      | None | Some [] => ret (failure "Password required to collect fees", true)
      | Some pw =>
          result <- Lib.collectFees C N userId pw API_BASE_URL ;;
          ret (result, false)
      end
    else ret (JObj [("error", JStr ("Unknown action: " ++ action))], true))
  (fun m => ret (JObj [("error", JStr m)], true)).

End Tool.
End Server.

(* ------------------------------------------------------------------ *)
(** ** Concrete instances to run the code on *)

Fixpoint zlist_eqb (a b : list Z) : bool :=
  match a, b with
  | [], [] => true
  | x :: a', y :: b' => Z.eqb x y && zlist_eqb a' b'
  | _, _ => false
  end.

Definition toy_mac (k iv p : bytes) : bytes :=
  repeat ((fold_left Z.add k 0 * 7 + fold_left Z.add iv 0 + fold_left Z.add p 0) mod 256) 16.

(** A cipher suite with the laws of [CipherSuite]: the key is the password
    bytes followed by the salt, the ciphertext is the plaintext and the tag
    a checksum of key, IV and plaintext.  It only serves to run examples. *)
Definition toy_suite : CipherSuite.
Proof.
  refine {| pbkdf2 := fun pw salt _ _ _ => (pw ++ salt)%list;
            gcm_seal := fun k iv p => (p, toy_mac k iv p);
            gcm_open := fun k iv tag ct =>
              if zlist_eqb tag (toy_mac k iv ct) then Some ct else None |}.
  - intros k iv p; cbn -[toy_mac zlist_eqb].
    assert (E : forall l, zlist_eqb l l = true).
    { induction l as [|x l IH]; simpl; [reflexivity|]. rewrite Z.eqb_refl, IH. reflexivity. }
    cbv beta. rewrite E. reflexivity.
  - intros k iv p Hp; simpl. split; [exact Hp|].
    unfold toy_mac. apply Forall_forall. intros x Hx.
    apply repeat_spec in Hx. subst x. unfold byte_ok.
    apply Z.mod_pos_bound. lia.
  - intros; reflexivity.
Defined.

(** The wallet [ethers.Wallet.createRandom()] derives from the entropy, in
    the examples: a fixed key and its address. *)
Definition ex_random_wallet (entropy : bytes) : jsstr * string :=
  (jsstr_of_string "0x4c0883a69102937d6231471b5dbb6204fe5129617082792ae468d01a3f362318",
   "0x2c7536E3605D9C16a7a3D7b1898e529396a65c23").

Definition EX_ADDRESS := "0x2c7536E3605D9C16a7a3D7b1898e529396a65c23".
Definition EX_DEST := "0x000000000000000000000000000000000000dEaD".

(** A network on which the account holds [bal] wei and every request
    succeeds with [reply]. *)
Definition ex_net (bal : Z) (reply : jsval) : Net := {|
  address_of_key := fun _ => Ret EX_ADDRESS;
  sign_message := fun _ msg => Ret ("0xsig(" ++ msg ++ ")");
  get_balance := fun _ => Ret bal;
  http := fun _ _ => Ret (true, Ret reply);
  send_value := fun _ _ _ => Ret ("0xsent", 7);
  call_contract := fun _ _ _ _ => Ret ("0xclaimed", 8);
  read_contract := fun _ _ _ => Ret 0;
  is_address := fun a => String.eqb a EX_DEST;
  date_now := 1760000000000;
  iso_now := "2026-10-18T00:00:00.000Z"
|}.

Definition ex_state : st :=
  mkst [] (fun _ _ => None) (fun i => Byte.x2a) 0 [].

Definition ex_password : jsstr := jsstr_of_string "correct-horse".



(** The example key, the store after ["alice"] created her wallet on a
    network where she holds [bal] wei, and the records it holds. *)
Definition ex_key : jsstr := fst (ex_random_wallet []).

Definition ex_created (bal : Z) : st :=
  snd (Lib.createWallet toy_suite (ex_net bal (JObj [])) ex_random_wallet
         "alice" ex_password ex_state).

Definition ex_wallets_of (s : st) : jsval :=
  match fs_get Lib.WALLETS_FILE (st_fs s) with
  | Some (EFile (FJson w)) => w
  | _ => JNull
  end.

(** A home directory with only the legacy wallet file, with the given
    file-system faults. *)
Definition ex_legacy_record : jsval := JObj [("address", JStr EX_ADDRESS)].

Definition ex_legacy_state (fl : fsop -> string -> option string) : st :=
  mkst [(Home.LEGACY_DATA_DIR, EDir);
        (Home.LEGACY_WALLET_FILE, EFile (FJson ex_legacy_record))]
       fl (fun _ => Byte.x2a) 0 [].

(** The home-directory store after the wallet was created, and its record. *)
Definition ex_home_created : st :=
  snd (Home.createWallet toy_suite (ex_net 0 (JObj [])) ex_random_wallet
         ex_password ex_state).

Definition ex_home_wallet_of (s : st) : jsval :=
  match fs_get Home.WALLET_FILE (st_fs s) with
  | Some (EFile (FJson w)) => w
  | _ => JNull
  end.

(** File-system faults for the examples: the legacy file cannot be removed,
    or cannot be read; the multi-user store cannot be read or written. *)
Definition ex_unlink_fault (op : fsop) (p : string) : option string :=
  match op with
  | OpUnlink => Some ("EBUSY: resource busy or locked, unlink '" ++ p ++ "'")
  | _ => None
  end.







(** A network whose collection endpoint rejects the request with
    [error: "Invalid password"]. *)
Definition ex_net_rejecting : Net := {|
  address_of_key := fun _ => Ret EX_ADDRESS;
  sign_message := fun _ msg => Ret ("0xsig(" ++ msg ++ ")");
  get_balance := fun _ => Ret 0;
  http := fun _ _ => Ret (false, Ret (JObj [("error", JStr "Invalid password")]));
  send_value := fun _ _ _ => Ret ("0xsent", 7);
  call_contract := fun _ _ _ _ => Ret ("0xclaimed", 8);
  read_contract := fun _ _ _ => Ret 0;
  is_address := fun a => String.eqb a EX_DEST;
  date_now := 1760000000000;
  iso_now := "2026-10-18T00:00:00.000Z"
|}.





(* ================================================================== *)
(** * Properties *)

(* ------------------------------------------------------------------ *)
(** ** Hex and UTF-8 round trips *)

Ltac zbool :=
  unfold is_cont, is_high_surrogate, is_low_surrogate in *;
  repeat first [ rewrite Bool.andb_true_iff | rewrite Bool.andb_false_iff
               | rewrite Bool.negb_true_iff | rewrite Bool.negb_false_iff
               | rewrite Bool.orb_true_iff | rewrite Bool.orb_false_iff
               | rewrite Z.ltb_lt | rewrite Z.ltb_ge | rewrite Z.leb_le | rewrite Z.leb_gt
               | rewrite Z.eqb_eq | rewrite Z.eqb_neq ];
  Z.div_mod_to_equations; lia.

(** Settles the first [if] of the goal whose condition arithmetic decides. *)
Ltac decide_if :=
  match goal with
  | |- context [ if ?c then _ else _ ] =>
      let H := fresh "Hc" in
      first [ assert (H : c = true) by zbool | assert (H : c = false) by zbool ];
      rewrite H; clear H
  end.

Lemma hex_val_char (d : Z) : 0 <= d < 16 -> hex_val (hex_char d) = Some d.
Proof.
  intros Hd.
  assert (d = 0 \/ d = 1 \/ d = 2 \/ d = 3 \/ d = 4 \/ d = 5 \/ d = 6 \/ d = 7 \/
          d = 8 \/ d = 9 \/ d = 10 \/ d = 11 \/ d = 12 \/ d = 13 \/ d = 14 \/ d = 15)
    as Hcases by lia.
  repeat destruct Hcases as [-> | Hcases]; try reflexivity; subst; reflexivity.
Qed.

Lemma hex_decode_encode (bs : bytes) : bytes_ok bs -> hex_decode (hex_encode bs) = bs.
Proof.
  induction bs as [|b bs IH]; intros Hok; [reflexivity|].
  inversion Hok as [|? ? Hb Hrest]; subst. unfold byte_ok in Hb.
  cbn [hex_encode hex_decode].
  rewrite !hex_val_char by (Z.div_mod_to_equations; lia).
  rewrite IH by exact Hrest. f_equal. Z.div_mod_to_equations; lia.
Qed.

Lemma hex_encode_length (bs : bytes) :
  String.length (hex_encode bs) = (2 * List.length bs)%nat.
Proof. induction bs; simpl; [reflexivity|]. rewrite IHbs. lia. Qed.

Lemma utf8_decode_cp (cp : Z) (rest : bytes) :
  scalar cp -> utf8_decode_cps (utf8_of_cp cp ++ rest)%list = cp :: utf8_decode_cps rest.
Proof.
  intros [Hr Hs]. unfold utf8_of_cp.
  destruct (Z.ltb_spec cp 0x80).
  - cbn [app utf8_decode_cps]. decide_if. reflexivity.
  - destruct (Z.ltb_spec cp 0x800).
    + cbn [app utf8_decode_cps]. repeat decide_if. f_equal. Z.div_mod_to_equations; lia.
    + destruct (Z.ltb_spec cp 0x10000).
      * cbn [app utf8_decode_cps]. repeat decide_if. f_equal. Z.div_mod_to_equations; lia.
      * cbn [app utf8_decode_cps]. repeat decide_if. f_equal. Z.div_mod_to_equations; lia.
Qed.

Lemma utf8_decode_cps_encode (cps : list Z) :
  Forall scalar cps -> utf8_decode_cps (flat_map utf8_of_cp cps) = cps.
Proof.
  induction 1 as [|cp cps Hcp Hcps IH]; [reflexivity|].
  cbn [flat_map]. rewrite utf8_decode_cp by exact Hcp. rewrite IH. reflexivity.
Qed.

(** The code units of a JavaScript string. *)
Lemma code_points_scalar_n (n : nat) (s : jsstr) :
  (List.length s <= n)%nat -> units_ok s -> Forall scalar (code_points s).
Proof.
  revert s. induction n as [|n IH]; intros s Hlen Hok.
  { destruct s; [constructor | simpl in Hlen; lia]. }
  destruct s as [|u rest]; [constructor|].
  inversion Hok as [|? ? Hu Hrest]; subst. simpl in Hlen.
  cbn [code_points].
  destruct (is_high_surrogate u) eqn:Hh.
  - destruct rest as [|u2 rest'].
    + constructor; [|constructor]. unfold scalar; lia.
    + inversion Hrest as [|? ? Hu2 Hrest']; subst.
      destruct (is_low_surrogate u2) eqn:Hl.
      * constructor; [|apply IH; simpl in Hlen; [lia | exact Hrest']].
        unfold scalar. unfold is_high_surrogate, is_low_surrogate in *.
        apply Bool.andb_true_iff in Hh, Hl.
        destruct Hh as [Hh1 Hh2], Hl as [Hl1 Hl2].
        apply Z.leb_le in Hh1, Hh2, Hl1, Hl2. lia.
      * constructor; [unfold scalar; lia | apply IH; [simpl in *; lia | exact Hrest]].
  - destruct (is_low_surrogate u) eqn:Hl.
    + constructor; [unfold scalar; lia | apply IH; [lia | exact Hrest]].
    + constructor; [|apply IH; [lia | exact Hrest]].
      unfold scalar. unfold is_high_surrogate, is_low_surrogate in *.
      apply Bool.andb_false_iff in Hh, Hl.
      destruct Hh as [Hh|Hh], Hl as [Hl|Hl]; apply Z.leb_gt in Hh; apply Z.leb_gt in Hl; lia.
Qed.

Lemma code_points_scalar (s : jsstr) : units_ok s -> Forall scalar (code_points s).
Proof. apply (code_points_scalar_n (List.length s)). lia. Qed.

Lemma utf16_code_points_n (n : nat) (s : jsstr) :
  (List.length s <= n)%nat -> well_formed_utf16 s = true ->
  flat_map utf16_of_cp (code_points s) = s.
Proof.
  revert s. induction n as [|n IH]; intros s Hlen Hwf.
  { destruct s; [reflexivity | simpl in Hlen; lia]. }
  destruct s as [|u rest]; [reflexivity|].
  simpl in Hlen. cbn [well_formed_utf16] in Hwf. cbn [code_points].
  apply Bool.andb_true_iff in Hwf as [Hr Hwf].
  apply Bool.andb_true_iff in Hr as [Hr1 Hr2]. apply Z.leb_le in Hr1, Hr2.
  destruct (is_high_surrogate u) eqn:Hh.
  - destruct rest as [|u2 rest']; [discriminate|].
    apply Bool.andb_true_iff in Hwf as [Hl Hwf]. rewrite Hl.
    cbn [flat_map]. rewrite IH by (simpl in Hlen; lia || exact Hwf).
    unfold utf16_of_cp.
    unfold is_high_surrogate, is_low_surrogate in *.
    apply Bool.andb_true_iff in Hh, Hl.
    destruct Hh as [Hh1 Hh2], Hl as [Hl1 Hl2].
    apply Z.leb_le in Hh1, Hh2, Hl1, Hl2. clear IH Hwf Hlen.
    replace (65536 + (u - 55296) * 1024 + (u2 - 56320) - 65536)
      with ((u - 55296) * 1024 + (u2 - 56320)) by ring.
    rewrite <- (Z.div_unique ((u - 55296) * 1024 + (u2 - 56320)) 1024
                  (u - 55296) (u2 - 56320)) by (lia || (left; lia)).
    rewrite <- (Z.mod_unique ((u - 55296) * 1024 + (u2 - 56320)) 1024
                  (u - 55296) (u2 - 56320)) by (lia || (left; lia)).
    replace (65536 + (u - 55296) * 1024 + (u2 - 56320) <? 65536) with false
      by (symmetry; apply Z.ltb_ge; lia).
    cbn [app]. f_equal; [|f_equal]; lia.
  - apply Bool.andb_true_iff in Hwf as [Hl Hwf]. apply Bool.negb_true_iff in Hl.
    rewrite Hl. cbn [flat_map]. rewrite IH by (lia || exact Hwf).
    unfold utf16_of_cp. decide_if. reflexivity.
Qed.

Lemma well_formed_units (s : jsstr) : well_formed_utf16 s = true -> units_ok s.
Proof.
  revert s. fix IH 1. intros s Hwf. destruct s as [|u rest]; [constructor|].
  cbn [well_formed_utf16] in Hwf.
  apply Bool.andb_true_iff in Hwf as [Hr Hwf].
  apply Bool.andb_true_iff in Hr as [Hr1 Hr2]. apply Z.leb_le in Hr1, Hr2.
  constructor; [lia|].
  destruct (is_high_surrogate u).
  - destruct rest as [|u2 rest']; [discriminate|].
    apply Bool.andb_true_iff in Hwf as [Hl Hwf].
    unfold is_low_surrogate in Hl. apply Bool.andb_true_iff in Hl as [Hl1 Hl2].
    apply Z.leb_le in Hl1, Hl2. constructor; [lia | exact (IH rest' Hwf)].
  - apply Bool.andb_true_iff in Hwf as [_ Hwf]. exact (IH rest Hwf).
Qed.

(** Decoding what Node encodes gives a well-formed string back. *)
Lemma utf8_roundtrip (s : jsstr) :
  well_formed_utf16 s = true -> utf8_decode (utf8_encode s) = s.
Proof.
  intros Hwf. unfold utf8_decode, utf8_encode.
  rewrite utf8_decode_cps_encode
    by exact (code_points_scalar s (well_formed_units s Hwf)).
  apply (utf16_code_points_n (List.length s)); [lia | exact Hwf].
Qed.

Lemma utf8_of_cp_bytes (cp : Z) : scalar cp -> bytes_ok (utf8_of_cp cp).
Proof.
  intros [Hr Hs]. unfold utf8_of_cp, bytes_ok, byte_ok.
  destruct (cp <? 0x80) eqn:E1; [|destruct (cp <? 0x800) eqn:E2;
    [|destruct (cp <? 0x10000) eqn:E3]];
  rewrite ?Z.ltb_lt, ?Z.ltb_ge in *;
  repeat constructor; Z.div_mod_to_equations; lia.
Qed.

Lemma utf8_encode_bytes (s : jsstr) : units_ok s -> bytes_ok (utf8_encode s).
Proof.
  intros Hok. unfold utf8_encode, bytes_ok.
  induction (code_points_scalar s Hok) as [|cp cps Hcp _ IH]; [constructor|].
  cbn [flat_map]. apply Forall_app. split; [exact (utf8_of_cp_bytes cp Hcp) | exact IH].
Qed.

(* ------------------------------------------------------------------ *)
(** ** Running the code: entropy, the envelope and the stores *)

(** Unfolds the monad and the effects, for a state given as [mkst ...]. *)
Ltac run :=
  cbv beta iota zeta delta [bind ret throw lift emit catch fault existsSync readFileSync
    writeFileSync mkdirSync unlinkSync set_fs console_error randomBytes
    signM balanceM fetchM sendM callM readM st_fs st_fault st_trace st_rand st_rpos
    negb andb orb].

Lemma randomBytes_spec (n : nat) (s : st) :
  exists bs, randomBytes n s =
    (Ret bs, mkst (st_fs s) (st_fault s) (st_rand s) (st_rpos s + n)
               (st_trace s ++ [EvRandom n])%list)
  /\ bytes_ok bs /\ List.length bs = n.
Proof.
  eexists. split; [reflexivity|]. split.
  - unfold bytes_ok. apply Forall_forall. intros x Hx.
    apply in_map_iff in Hx as [i [<- _]]. unfold byte_ok.
    pose proof (Byte.to_N_bounded (st_rand s (st_rpos s + i))). lia.
  - rewrite length_map, length_seq. reflexivity.
Qed.

(** What [decrypt] does on an envelope [encrypt] wrote, under any password:
    the cipher alone decides. *)
Lemma decrypt_sealed (C : CipherSuite) (salt iv pt : bytes) (password : jsstr) :
  bytes_ok salt -> bytes_ok iv -> List.length iv = 16%nat -> bytes_ok pt ->
  let sealed := gcm_seal C (deriveKey C password salt) iv pt in
  forall password',
  decrypt C (Some (JObj [("salt", JStr (hex_encode salt));
             ("iv", JStr (hex_encode iv));
             ("tag", JStr (hex_encode (snd sealed)));
             ("encrypted", JStr (hex_encode (fst sealed)))])) password'
  = match gcm_open C (deriveKey C password' salt) iv (snd sealed) (fst sealed) with
    | Some plain => Ret (utf8_decode plain)
    | None => Thr "Unsupported state or unable to authenticate data"
    end.
Proof.
  intros Hs Hi Hl Hp sealed password'.
  pose proof (gcm_seal_bytes C (deriveKey C password salt) iv pt Hp) as [Hc Ht].
  pose proof (gcm_tag_length C (deriveKey C password salt) iv pt) as Htl.
  fold sealed in Hc, Ht, Htl.
  unfold decrypt. cbn [prop js_get assoc_get String.eqb Ascii.eqb Bool.eqb then_ buffer_from_hex].
  rewrite !hex_decode_encode by assumption. rewrite Hl, Htl. cbn -[deriveKey].
  reflexivity.
Qed.

(** The envelope of [text] opens, under every password with the same UTF-8
    bytes, to the UTF-8 round trip of [text]. *)
Lemma encrypt_opens (C : CipherSuite) (text password : jsstr) (s : st) :
  units_ok text ->
  exists env s', encrypt C text password s = (Ret env, s') /\
    forall password', utf8_encode password' = utf8_encode password ->
    decrypt C (Some env) password' = Ret (utf8_decode (utf8_encode text)).
Proof.
  intros Hok. unfold encrypt, bind.
  destruct (randomBytes_spec SALT_LENGTH s) as [salt [E1 [Hs _]]]. rewrite E1.
  destruct (randomBytes_spec IV_LENGTH
              (mkst (st_fs s) (st_fault s) (st_rand s) (st_rpos s + SALT_LENGTH)
                 (st_trace s ++ [EvRandom SALT_LENGTH])%list)) as [iv [E2 [Hi Hli]]].
  rewrite E2. unfold ret. do 2 eexists. split; [reflexivity|].
  intros password' Hp.
  rewrite (decrypt_sealed C salt iv (utf8_encode text) password Hs Hi Hli
             (utf8_encode_bytes text Hok)).
  unfold deriveKey at 1. rewrite Hp. fold (deriveKey C password salt).
  rewrite gcm_open_seal. reflexivity.
Qed.

Lemma Lib_loadWallets_ok (s : st) (wallets : jsval) :
  fs_get Lib.DATA_DIR (st_fs s) <> None ->
  fs_get Lib.WALLETS_FILE (st_fs s) = Some (EFile (FJson wallets)) ->
  st_fault s OpRead Lib.WALLETS_FILE = None ->
  Lib.loadWallets s = (Ret wallets, s).
Proof.
  intros Hd Hf Hr. destruct s as [fs fl rnd pos tr]; cbn [st_fs st_fault] in *.
  unfold Lib.loadWallets, Lib.ensureDataDir. run.
  destruct (fs_get Lib.DATA_DIR fs); [|congruence].
  rewrite Hf. run. rewrite Hr. run. rewrite Hf. reflexivity.
Qed.

Lemma Home_loadWallet_ok (s : st) (wallet : jsval) :
  fs_get Home.DATA_DIR (st_fs s) <> None ->
  fs_get Home.WALLET_FILE (st_fs s) = Some (EFile (FJson wallet)) ->
  st_fault s OpRead Home.WALLET_FILE = None ->
  Home.loadWallet s = (Ret wallet, s).
Proof.
  intros Hd Hf Hr. destruct s as [fs fl rnd pos tr]; cbn [st_fs st_fault] in *.
  unfold Home.loadWallet, Home.ensureDataDir. run.
  destruct (fs_get Home.DATA_DIR fs); [|congruence].
  rewrite Hf. run. rewrite Hr. run. rewrite Hf. reflexivity.
Qed.

Lemma prop_some (v : jsval) (k : string) (w : jsval) :
  js_get v k = Some w -> prop (Some v) k = Ret (Some w).
Proof. intros E. destruct v; cbn [prop js_get] in *; try discriminate; rewrite E; reflexivity. Qed.

Lemma prop_truthy (w : jsval) (k : string) :
  truthy (Some w) = true -> prop (Some w) k = Ret (js_get w k).
Proof. intros H. destruct w; cbn [truthy] in H; try discriminate; reflexivity. Qed.

(** The user's record as [lib/wallet.js] reads it: present, and its
    [encryptedKey] field. *)
Ltac lib_record Hl Hw :=
  let w := fresh "w" in let Ew := fresh "Ew" in
  let Hp := fresh "Hp" in let Hek := fresh "Hek" in
  match type of Hw with
  | truthy (js_get ?wallets ?userId) = true =>
      destruct (js_get wallets userId) as [w|] eqn:Ew; [|discriminate];
      pose proof (prop_some _ _ _ Ew) as Hp;
      pose proof (prop_truthy w "encryptedKey" Hw) as Hek;
      cbn [js_get_opt] in *
  end.


(* ------------------------------------------------------------------ *)
(** ** The envelope (C1, C2) *)

(** C1, counterexample: a secret holding a lone surrogate does not come
    back.  Node encodes it as EF BF BD, the encoding of U+FFFD, so the
    envelope opens, under the right password and for every cipher suite, to
    U+FFFD. *)
Lemma C1_lone_surrogate :
  (forall (C : CipherSuite) (password : jsstr) (s : st),
     exists env s', encrypt C [0xD800] password s = (Ret env, s') /\
       decrypt C (Some env) password = Ret [0xFFFD]) /\
  [0xFFFD] <> [0xD800].
Proof.
  split; [|discriminate].
  intros C password s.
  assert (Hok : units_ok [0xD800]) by (repeat constructor; lia).
  destruct (encrypt_opens C [0xD800] password s Hok) as [env [s' [E D]]].
  exists env, s'. split; [exact E|]. rewrite (D password eq_refl). reflexivity.
Qed.

(** C1 (amended): for every cipher suite, every password and every secret
    that is well-formed UTF-16 (no lone surrogate; a private key in hex is
    one), opening the envelope [encrypt] seals with the same password gives
    the secret back. *)
Theorem C1_envelope_roundtrip (C : CipherSuite) (text password : jsstr) (s : st) :
  well_formed_utf16 text = true ->
  exists env s', encrypt C text password s = (Ret env, s') /\
    decrypt C (Some env) password = Ret text.
Proof.
  intros Hwf.
  destruct (encrypt_opens C text password s (well_formed_units text Hwf)) as [env [s' [E D]]].
  exists env, s'. split; [exact E|]. rewrite (D password eq_refl), utf8_roundtrip by exact Hwf.
  reflexivity.
Qed.

(** C1: the round trip of the example key. *)
Lemma C1_envelope_roundtrip_witness :
  exists env s', encrypt toy_suite ex_key ex_password ex_state = (Ret env, s') /\
    decrypt toy_suite (Some env) ex_password = Ret ex_key.
Proof. apply C1_envelope_roundtrip. vm_compute. reflexivity. Defined.








(* ------------------------------------------------------------------ *)
(** ** [transfer] (C4, C10) and [createWallet] (C5) *)
(** C4: with the user's record in the store, a destination [ethers.isAddress]
    rejects gives [Invalid destination address] before anything is
    decrypted, read or sent; and once the key is unlocked, an amount above
    the balance gives the [Insufficient balance] message carrying the
    formatted balance and the requested amount, the only effect being the
    balance read (no transaction is sent). *)
Theorem C4_transfer_guards (C : CipherSuite) (N : Net) (userId : string) (password : jsstr)
  (toAddress amount : string) (s : st) (wallets : jsval) :
  fs_get Lib.DATA_DIR (st_fs s) <> None ->
  fs_get Lib.WALLETS_FILE (st_fs s) = Some (EFile (FJson wallets)) ->
  st_fault s OpRead Lib.WALLETS_FILE = None ->
  truthy (js_get wallets userId) = true ->
  (is_address N toAddress = false ->
   Lib.transfer C N userId password toAddress amount s =
     (Ret (failure "Invalid destination address"), s)) /\
  (forall key address balance amountWei,
   is_address N toAddress = true ->
   decrypt C (js_get_opt (js_get wallets userId) "encryptedKey") password = Ret key ->
   address_of_key N key = Ret address ->
   get_balance N address = Ret balance ->
   parseEther amount = Ret amountWei ->
   balance < amountWei ->
   Lib.transfer C N userId password toAddress amount s =
     (Ret (failure ("Insufficient balance. You have " ++ formatEther balance
                    ++ " ETH but tried to send " ++ amount ++ " ETH")),
      mkst (st_fs s) (st_fault s) (st_rand s) (st_rpos s)
           (st_trace s ++ [EvGetBalance address])%list)).
Proof.
  intros Hd Hf Hr Hw.
  pose proof (Lib_loadWallets_ok s wallets Hd Hf Hr) as Hl.
  lib_record Hl Hw. destruct s as [fs fl rnd pos tr]. split.
  - intros Ha. unfold Lib.transfer. run. rewrite Hl. run. rewrite Hp. run.
    rewrite Hw, Ha. reflexivity.
  - intros key address balance amountWei Ha Hdec Haddr Hbal Hpe Hlt.
    unfold Lib.transfer, Lib.transfer_try. run. rewrite Hl. run. rewrite Hp. run.
    rewrite Hw, Ha. run. rewrite Hek. run. rewrite Hdec. run. rewrite Haddr. run.
    rewrite Hbal. run. rewrite Hpe. run.
    apply Z.ltb_lt in Hlt. rewrite Hlt. reflexivity.
Qed.

(** C4 on the example store. *)
Lemma C4_transfer_guards_witness :
  Lib.transfer toy_suite (ex_net (10^18) (JObj [])) "alice" ex_password "0xnot-an-address" "2.0"
     (ex_created (10^18)) = (Ret (failure "Invalid destination address"), ex_created (10^18)) /\
  Lib.transfer toy_suite (ex_net (10^18) (JObj [])) "alice" ex_password EX_DEST "2.0"
     (ex_created (10^18)) =
    (Ret (failure ("Insufficient balance. You have " ++ formatEther (10^18)
                   ++ " ETH but tried to send " ++ "2.0" ++ " ETH")),
     mkst (st_fs (ex_created (10^18))) (st_fault (ex_created (10^18)))
          (st_rand (ex_created (10^18))) (st_rpos (ex_created (10^18)))
          (st_trace (ex_created (10^18)) ++ [EvGetBalance EX_ADDRESS])%list).
Proof.
  split.
  - apply (proj1 (C4_transfer_guards toy_suite (ex_net (10^18) (JObj [])) "alice" ex_password
             "0xnot-an-address" "2.0" (ex_created (10^18)) (ex_wallets_of (ex_created (10^18)))
             ltac:(vm_compute; discriminate) ltac:(vm_compute; reflexivity)
             ltac:(vm_compute; reflexivity) ltac:(vm_compute; reflexivity))).
    vm_compute. reflexivity.
  - apply (proj2 (C4_transfer_guards toy_suite (ex_net (10^18) (JObj [])) "alice" ex_password
             EX_DEST "2.0" (ex_created (10^18)) (ex_wallets_of (ex_created (10^18)))
             ltac:(vm_compute; discriminate) ltac:(vm_compute; reflexivity)
             ltac:(vm_compute; reflexivity) ltac:(vm_compute; reflexivity))
             ex_key EX_ADDRESS (10^18) (2 * 10^18));
      vm_compute; reflexivity.
Defined.

(** C10: the balance guard is strict.  An amount equal to the whole balance
    passes it and is sent: the transaction carries the whole balance as its
    value. *)
Theorem C10_transfer_whole_balance (C : CipherSuite) (N : Net) (userId : string)
  (password : jsstr) (toAddress amount : string) (s : st) (wallets : jsval)
  (key : jsstr) (address : string) (balance : Z) (receipt : string * Z) :
  fs_get Lib.DATA_DIR (st_fs s) <> None ->
  fs_get Lib.WALLETS_FILE (st_fs s) = Some (EFile (FJson wallets)) ->
  st_fault s OpRead Lib.WALLETS_FILE = None ->
  truthy (js_get wallets userId) = true ->
  is_address N toAddress = true ->
  decrypt C (js_get_opt (js_get wallets userId) "encryptedKey") password = Ret key ->
  address_of_key N key = Ret address ->
  get_balance N address = Ret balance ->
  parseEther amount = Ret balance ->
  send_value N key toAddress balance = Ret receipt ->
  Lib.transfer C N userId password toAddress amount s =
    (Ret (JObj [("success", JBool true); ("transactionHash", JStr (fst receipt));
                ("from", JStr address); ("to", JStr toAddress);
                ("amount", JStr amount); ("unit", JStr "ETH");
                ("blockNumber", JNum (snd receipt))]),
     mkst (st_fs s) (st_fault s) (st_rand s) (st_rpos s)
          (st_trace s ++ [EvGetBalance address; EvSend toAddress balance])%list).
Proof.
  intros Hd Hf Hr Hw Ha Hdec Haddr Hbal Hpe Hsend.
  pose proof (Lib_loadWallets_ok s wallets Hd Hf Hr) as Hl.
  lib_record Hl Hw. destruct s as [fs fl rnd pos tr].
  unfold Lib.transfer, Lib.transfer_try. run. rewrite Hl. run. rewrite Hp. run.
  rewrite Hw, Ha. run. rewrite Hek. run. rewrite Hdec. run. rewrite Haddr. run.
  rewrite Hbal. run. rewrite Hpe. run. rewrite Z.ltb_irrefl. run. rewrite Hsend.
  rewrite <- app_assoc. reflexivity.
Qed.

(** C10 on the example store: sending exactly 1 ETH of 1 ETH. *)
Lemma C10_transfer_whole_balance_witness :
  Lib.transfer toy_suite (ex_net (10^18) (JObj [])) "alice" ex_password EX_DEST "1.0"
     (ex_created (10^18)) =
    (Ret (JObj [("success", JBool true); ("transactionHash", JStr "0xsent");
                ("from", JStr EX_ADDRESS); ("to", JStr EX_DEST);
                ("amount", JStr "1.0"); ("unit", JStr "ETH");
                ("blockNumber", JNum 7)]),
     mkst (st_fs (ex_created (10^18))) (st_fault (ex_created (10^18)))
          (st_rand (ex_created (10^18))) (st_rpos (ex_created (10^18)))
          (st_trace (ex_created (10^18)) ++ [EvGetBalance EX_ADDRESS; EvSend EX_DEST (10^18)])%list).
Proof.
  apply (C10_transfer_whole_balance toy_suite (ex_net (10^18) (JObj [])) "alice" ex_password
           EX_DEST "1.0" (ex_created (10^18)) (ex_wallets_of (ex_created (10^18)))
           ex_key EX_ADDRESS (10^18) ("0xsent", 7));
    vm_compute; first [discriminate | reflexivity].
Defined.

(** C5: when the store already holds a record for the identity (the user's
    entry in [wallets.json], or the wallet of the home-directory variant),
    [createWallet] returns the already-exists failure and the state after
    the call is the state before it: nothing is generated, encrypted or
    written. *)
Theorem C5_create_keeps_record :
  (forall (C : CipherSuite) (N : Net) (random_wallet : bytes -> jsstr * string)
          (userId : string) (password : jsstr) (s : st) (wallets : jsval),
     fs_get Lib.DATA_DIR (st_fs s) <> None ->
     fs_get Lib.WALLETS_FILE (st_fs s) = Some (EFile (FJson wallets)) ->
     st_fault s OpRead Lib.WALLETS_FILE = None ->
     truthy (js_get wallets userId) = true ->
     Lib.createWallet C N random_wallet userId password s =
       (Ret (failure ("Wallet already exists for this user. Use " ++ q ++ "get" ++ q
                      ++ " to retrieve it.")), s)) /\
  (forall (C : CipherSuite) (N : Net) (random_wallet : bytes -> jsstr * string)
          (password : jsstr) (s : st) (existing : jsval),
     fs_get Home.DATA_DIR (st_fs s) <> None ->
     fs_get Home.WALLET_FILE (st_fs s) = Some (EFile (FJson existing)) ->
     st_fault s OpRead Home.WALLET_FILE = None ->
     truthy (Some existing) = true ->
     Home.createWallet C N random_wallet password s =
       (Ret (JObj ([("success", JBool false);
                    ("error", JStr ("Wallet already exists. Use " ++ q ++ "get" ++ q
                                    ++ " to retrieve it."))]
                   ++ opt_field "address" (js_get existing "address"))%list), s)).
Proof.
  split.
  - intros C N random_wallet userId password s wallets Hd Hf Hr Hw.
    pose proof (Lib_loadWallets_ok s wallets Hd Hf Hr) as Hl.
    lib_record Hl Hw. destruct s as [fs fl rnd pos tr].
    unfold Lib.createWallet. run. rewrite Hl. run. rewrite Hp. run. rewrite Hw. reflexivity.
  - intros C N random_wallet password s existing Hd Hf Hr Hw.
    pose proof (Home_loadWallet_ok s existing Hd Hf Hr) as Hl.
    pose proof (prop_truthy existing "address" Hw) as Ha.
    destruct s as [fs fl rnd pos tr].
    unfold Home.createWallet. run. rewrite Hl. run. rewrite Hw. run. rewrite Ha. reflexivity.
Qed.

(** C5 on the example stores. *)
Lemma C5_create_keeps_record_witness :
  Lib.createWallet toy_suite (ex_net 0 (JObj [])) ex_random_wallet "alice" ex_password
    (ex_created 0) =
    (Ret (failure ("Wallet already exists for this user. Use " ++ q ++ "get" ++ q
                   ++ " to retrieve it.")), ex_created 0) /\
  Home.createWallet toy_suite (ex_net 0 (JObj [])) ex_random_wallet ex_password
    ex_home_created =
    (Ret (JObj ([("success", JBool false);
                 ("error", JStr ("Wallet already exists. Use " ++ q ++ "get" ++ q
                                 ++ " to retrieve it."))]
                ++ opt_field "address" (js_get (ex_home_wallet_of ex_home_created) "address"))%list),
     ex_home_created).
Proof.
  split.
  - apply (proj1 C5_create_keeps_record toy_suite (ex_net 0 (JObj [])) ex_random_wallet
             "alice" ex_password (ex_created 0) (ex_wallets_of (ex_created 0)));
      vm_compute; first [discriminate | reflexivity].
  - apply (proj2 C5_create_keeps_record toy_suite (ex_net 0 (JObj [])) ex_random_wallet
             ex_password ex_home_created (ex_home_wallet_of ex_home_created));
      vm_compute; first [discriminate | reflexivity].
Defined.

(* ------------------------------------------------------------------ *)
(** ** The stores: migration (C6) and storage errors (C7) *)

Lemma fs_get_put_eq (p : string) (e : entry) (fs : list (string * entry)) :
  fs_get p (fs_put p e fs) = Some e.
Proof.
  induction fs as [|[p' e'] fs IH]; cbn [fs_put fs_get]; rewrite ?String.eqb_refl; [reflexivity|].
  destruct (String.eqb p p') eqn:E; cbn [fs_get]; rewrite ?String.eqb_refl, ?E; [reflexivity|exact IH].
Qed.

Lemma fs_get_put_ne (p p' : string) (e : entry) (fs : list (string * entry)) :
  String.eqb p p' = false -> fs_get p (fs_put p' e fs) = fs_get p fs.
Proof.
  intros Hne. induction fs as [|[q e'] fs IH]; cbn [fs_put fs_get]; [rewrite Hne; reflexivity|].
  destruct (String.eqb p' q) eqn:E; cbn [fs_get].
  - apply String.eqb_eq in E. subst q. rewrite Hne. reflexivity.
  - destruct (String.eqb p q); [reflexivity|exact IH].
Qed.

Lemma fs_get_del_eq (p : string) (fs : list (string * entry)) : fs_get p (fs_del p fs) = None.
Proof.
  induction fs as [|[q e'] fs IH]; cbn [fs_del fs_get]; [reflexivity|].
  destruct (String.eqb p q) eqn:E; [exact IH|]. cbn [fs_get]. rewrite E. exact IH.
Qed.

Lemma fs_get_del_ne (p p' : string) (fs : list (string * entry)) :
  String.eqb p p' = false -> fs_get p (fs_del p' fs) = fs_get p fs.
Proof.
  intros Hne. induction fs as [|[q e'] fs IH]; cbn [fs_del fs_get]; [reflexivity|].
  destruct (String.eqb p' q) eqn:E.
  - apply String.eqb_eq in E. subst q. rewrite Hne. exact IH.
  - cbn [fs_get]. destruct (String.eqb p q); [reflexivity|exact IH].
Qed.

Lemma Home_migrate_present (s : st) :
  fs_get Home.WALLET_FILE (st_fs s) <> None -> Home.migrateWalletIfNeeded s = (Ret tt, s).
Proof.
  intros H. destruct s as [fs fl rnd pos tr]; cbn [st_fs] in H.
  unfold Home.migrateWalletIfNeeded. run.
  destruct (fs_get Home.WALLET_FILE fs); [reflexivity|congruence].
Qed.

Lemma Home_migrate_moves (fs : list (string * entry)) fl rnd pos tr (c : fcontent) :
  fs_get Home.WALLET_FILE fs = None ->
  fs_get Home.LEGACY_WALLET_FILE fs = Some (EFile c) ->
  fl OpMkdir Home.DATA_DIR = None ->
  fl OpRead Home.LEGACY_WALLET_FILE = None ->
  fl OpWrite Home.WALLET_FILE = None ->
  fl OpUnlink Home.LEGACY_WALLET_FILE = None ->
  exists fs0 ev,
    fs_get Home.LEGACY_WALLET_FILE fs0 = Some (EFile c) /\
    Home.migrateWalletIfNeeded (mkst fs fl rnd pos tr) =
      (Ret tt, mkst (fs_del Home.LEGACY_WALLET_FILE (fs_put Home.WALLET_FILE (EFile c) fs0))
                    fl rnd pos
                    (tr ++ ev ++ [EvLog "[vibecoin] Migrated wallet to ~/.vibecoin/wallet.json"])%list).
Proof.
  intros Hn Hl Hm Hr Hwr Hu.
  unfold Home.migrateWalletIfNeeded. run. rewrite Hn, Hl. run.
  destruct (fs_get Home.DATA_DIR fs) eqn:Ed.
  - run. rewrite Hr. run. rewrite Hl. run. rewrite Hwr. run. rewrite Hu. run.
    rewrite fs_get_put_ne by reflexivity. rewrite Hl. run.
    exists fs, [EvWrite Home.WALLET_FILE c; EvUnlink Home.LEGACY_WALLET_FILE].
    split; [exact Hl|]. rewrite <- !app_assoc. reflexivity.
  - run. rewrite Hm. run. rewrite Hr. run.
    rewrite fs_get_put_ne by reflexivity. rewrite Hl. run. rewrite Hwr. run. rewrite Hu. run.
    rewrite !fs_get_put_ne by reflexivity. rewrite Hl. run.
    exists (fs_put Home.DATA_DIR EDir fs),
      [EvMkdir Home.DATA_DIR; EvWrite Home.WALLET_FILE c; EvUnlink Home.LEGACY_WALLET_FILE].
    split; [rewrite fs_get_put_ne by reflexivity; exact Hl|].
    rewrite <- !app_assoc. reflexivity.
Qed.

(** C6 (amended): [migrateWalletIfNeeded] does nothing when the home
    directory already holds a wallet file; when it holds none and the legacy
    file holds a record, and the file system raises no error, one run copies
    the record to the home directory, removes the legacy file and logs the
    move, and a second run changes nothing. *)
Theorem C6_migration (s : st) :
  (fs_get Home.WALLET_FILE (st_fs s) <> None ->
   Home.migrateWalletIfNeeded s = (Ret tt, s)) /\
  (forall c,
   fs_get Home.WALLET_FILE (st_fs s) = None ->
   fs_get Home.LEGACY_WALLET_FILE (st_fs s) = Some (EFile c) ->
   st_fault s OpMkdir Home.DATA_DIR = None ->
   st_fault s OpRead Home.LEGACY_WALLET_FILE = None ->
   st_fault s OpWrite Home.WALLET_FILE = None ->
   st_fault s OpUnlink Home.LEGACY_WALLET_FILE = None ->
   exists s', Home.migrateWalletIfNeeded s = (Ret tt, s') /\
     fs_get Home.WALLET_FILE (st_fs s') = Some (EFile c) /\
     fs_get Home.LEGACY_WALLET_FILE (st_fs s') = None /\
     (exists ev, st_trace s' = (st_trace s ++ ev ++
        [EvLog "[vibecoin] Migrated wallet to ~/.vibecoin/wallet.json"])%list) /\
     Home.migrateWalletIfNeeded s' = (Ret tt, s')).
Proof.
  split; [apply Home_migrate_present|].
  intros c Hn Hl Hm Hr Hwr Hu. destruct s as [fs fl rnd pos tr]; cbn [st_fs st_fault st_trace] in *.
  destruct (Home_migrate_moves fs fl rnd pos tr c Hn Hl Hm Hr Hwr Hu) as [fs0 [ev [Hl0 E]]].
  rewrite E. eexists. split; [reflexivity|]. cbn [st_fs st_trace].
  assert (Hs : fs_get Home.WALLET_FILE
                 (fs_del Home.LEGACY_WALLET_FILE (fs_put Home.WALLET_FILE (EFile c) fs0))
               = Some (EFile c))
    by (rewrite fs_get_del_ne by reflexivity; apply fs_get_put_eq).
  split; [exact Hs|]. split; [apply fs_get_del_eq|]. split; [exists ev; reflexivity|].
  apply Home_migrate_present. cbn [st_fs]. rewrite Hs. discriminate.
Qed.

(** C6 on the example legacy directory. *)
Lemma C6_migration_witness :
  exists s', Home.migrateWalletIfNeeded (ex_legacy_state (fun _ _ => None)) = (Ret tt, s') /\
     fs_get Home.WALLET_FILE (st_fs s') = Some (EFile (FJson ex_legacy_record)) /\
     fs_get Home.LEGACY_WALLET_FILE (st_fs s') = None /\
     (exists ev, st_trace s' = (st_trace (ex_legacy_state (fun _ _ => None)) ++ ev ++
        [EvLog "[vibecoin] Migrated wallet to ~/.vibecoin/wallet.json"])%list) /\
     Home.migrateWalletIfNeeded s' = (Ret tt, s').
Proof.
  apply (proj2 (C6_migration (ex_legacy_state (fun _ _ => None))) (FJson ex_legacy_record));
    vm_compute; reflexivity.
Defined.

(** C6, counterexample: when removing the legacy file fails, the record has
    been copied but stays in both places; the run logs a failed migration,
    and every later run is a no-op that keeps the two copies. *)
Lemma C6_unlink_fault_keeps_both :
  fs_get Home.WALLET_FILE
    (st_fs (snd (Home.migrateWalletIfNeeded (ex_legacy_state ex_unlink_fault))))
    = Some (EFile (FJson ex_legacy_record)) /\
  fs_get Home.LEGACY_WALLET_FILE
    (st_fs (snd (Home.migrateWalletIfNeeded (ex_legacy_state ex_unlink_fault))))
    = Some (EFile (FJson ex_legacy_record)) /\
  st_trace (snd (Home.migrateWalletIfNeeded (ex_legacy_state ex_unlink_fault))) =
    [EvMkdir Home.DATA_DIR; EvWrite Home.WALLET_FILE (FJson ex_legacy_record);
     EvLog ("[vibecoin] Failed to migrate wallet: EBUSY: resource busy or locked, unlink '"
            ++ Home.LEGACY_WALLET_FILE ++ "'")] /\
  Home.migrateWalletIfNeeded (snd (Home.migrateWalletIfNeeded (ex_legacy_state ex_unlink_fault)))
    = (Ret tt, snd (Home.migrateWalletIfNeeded (ex_legacy_state ex_unlink_fault))).
Proof. vm_compute. repeat split. Qed.






(* ------------------------------------------------------------------ *)
(** ** [collectFees]: the two paths (C3) *)




(** What a computation adds to the trace, compositionally. *)
Section Extends.
Variable P : event -> Prop.










End Extends.








(* ------------------------------------------------------------------ *)
(** ** What leaves the process (C8) *)









(* ------------------------------------------------------------------ *)
(** ** The [Invalid password] reply (C9) *)

(** Case analysis over every exception a [try] block can meet. *)
Ltac split_exc :=
  repeat (run; match goal with
    | |- context [match ?x with Ret _ => _ | Thr _ => _ end] => destruct x
    | |- context [if ?b then _ else _] => destruct b
    end).

(** The [try] blocks of [signMessage] and [transfer] never return the
    [Invalid password] failure themselves. *)
Lemma Lib_signMessage_try_ret (C : CipherSuite) (N : Net) (w : option jsval)
  (password : jsstr) (message : string) (s s' : st) (r : jsval) :
  Lib.signMessage_try C N w password message s = (Ret r, s') -> r <> failure "Invalid password".
Proof.
  destruct s as [fs fl rnd pos tr]. unfold Lib.signMessage_try. split_exc;
    intros E; try discriminate E; injection E as <- _; discriminate.
Qed.

Lemma Lib_transfer_try_ret (C : CipherSuite) (N : Net) (w : option jsval)
  (password : jsstr) (toAddress amount : string) (s s' : st) (r : jsval) :
  Lib.transfer_try C N w password toAddress amount s = (Ret r, s') ->
  r <> failure "Invalid password".
Proof.
  destruct s as [fs fl rnd pos tr]. unfold Lib.transfer_try. split_exc;
    intros E; try discriminate E; injection E as <- _; discriminate.
Qed.

Lemma invalid_password_or_iff (prefix m : string) :
  (forall rest, prefix ++ rest <> "Invalid password") ->
  invalid_password_or prefix m = failure "Invalid password" <->
  (str_includes "Unsupported state" m || str_includes "auth" m) = true.
Proof.
  intros Hp. unfold invalid_password_or.
  destruct (str_includes "Unsupported state" m || str_includes "auth" m); split; auto.
  - intros E. injection E as E. exfalso. exact (Hp m E).
  - discriminate.
Qed.

(** C9: [signMessage] and [transfer] answer [Invalid password] exactly when
    their [try] block threw a message containing [Unsupported state] or
    [auth]; an exception thrown in the [try] block of [collectFees] gives
    [Invalid password] under the same test; so a balance read that fails
    with a message containing [auth], after the key was decrypted, is
    reported as [Invalid password]. *)
Theorem C9_invalid_password (C : CipherSuite) (N : Net) (userId : string) (password : jsstr)
  (s : st) (wallets : jsval) :
  fs_get Lib.DATA_DIR (st_fs s) <> None ->
  fs_get Lib.WALLETS_FILE (st_fs s) = Some (EFile (FJson wallets)) ->
  st_fault s OpRead Lib.WALLETS_FILE = None ->
  truthy (js_get wallets userId) = true ->
  (forall message s',
     Lib.signMessage C N userId password message s = (Ret (failure "Invalid password"), s') <->
     exists m, Lib.signMessage_try C N (js_get wallets userId) password message s = (Thr m, s')
       /\ (str_includes "Unsupported state" m || str_includes "auth" m) = true) /\
  (forall toAddress amount s',
     is_address N toAddress = true ->
     (Lib.transfer C N userId password toAddress amount s =
        (Ret (failure "Invalid password"), s') <->
      exists m, Lib.transfer_try C N (js_get wallets userId) password toAddress amount s
                  = (Thr m, s')
        /\ (str_includes "Unsupported state" m || str_includes "auth" m) = true)) /\
  (forall apiBaseUrl m s',
     Lib.collectFees_try C N (js_get wallets userId) password apiBaseUrl s = (Thr m, s') ->
     Lib.collectFees C N userId password apiBaseUrl s =
       (Ret (invalid_password_or "Fee collection failed: " m), s') /\
     (Lib.collectFees C N userId password apiBaseUrl s = (Ret (failure "Invalid password"), s')
      <-> (str_includes "Unsupported state" m || str_includes "auth" m) = true)) /\
  (forall apiBaseUrl key address m,
     decrypt C (js_get_opt (js_get wallets userId) "encryptedKey") password = Ret key ->
     address_of_key N key = Ret address ->
     get_balance N address = Thr m ->
     str_includes "auth" m = true ->
     Lib.collectFees C N userId password apiBaseUrl s =
       (Ret (failure "Invalid password"),
        mkst (st_fs s) (st_fault s) (st_rand s) (st_rpos s)
             (st_trace s ++ [EvGetBalance address])%list)).
Proof.
  intros Hd Hf Hr Hw.
  pose proof (Lib_loadWallets_ok s wallets Hd Hf Hr) as Hl.
  lib_record Hl Hw. destruct s as [fs fl rnd pos tr].
  split; [|split; [|split]].
  - intros message s'. unfold Lib.signMessage, catch. run. rewrite Hl. run. rewrite Hp. run.
    rewrite Hw. run.
    destruct (Lib.signMessage_try C N (Some w) password message
                (mkst fs fl rnd pos tr)) as [[r|m] s''] eqn:E; split.
    + intros Heq. injection Heq as -> ->.
      exfalso. exact (Lib_signMessage_try_ret _ _ _ _ _ _ _ _ E eq_refl).
    + intros [m [Heq _]]. discriminate.
    + intros Heq. injection Heq as Hv ->. exists m. split; [reflexivity|].
      apply (invalid_password_or_iff "Signing failed: " m); [|exact Hv].
      intros rest Er. discriminate Er.
    + intros [m' [Heq Hc]]. injection Heq as -> ->. unfold invalid_password_or, orb.
      rewrite Hc. reflexivity.
  - intros toAddress amount s' Ha. unfold Lib.transfer, catch. run. rewrite Hl. run.
    rewrite Hp. run. rewrite Hw, Ha. run.
    destruct (Lib.transfer_try C N (Some w) password toAddress amount
                (mkst fs fl rnd pos tr)) as [[r|m] s''] eqn:E; split.
    + intros Heq. injection Heq as -> ->.
      exfalso. exact (Lib_transfer_try_ret _ _ _ _ _ _ _ _ _ E eq_refl).
    + intros [m [Heq _]]. discriminate.
    + intros Heq. injection Heq as Hv ->. exists m. split; [reflexivity|].
      apply (invalid_password_or_iff "Transfer failed: " m); [|exact Hv].
      intros rest Er. discriminate Er.
    + intros [m' [Heq Hc]]. injection Heq as -> ->. unfold invalid_password_or, orb.
      rewrite Hc. reflexivity.
  - intros apiBaseUrl m s' E. unfold Lib.collectFees, catch. run. rewrite Hl. run.
    rewrite Hp. run. rewrite Hw. run. rewrite E.
    split; [reflexivity|]. rewrite <- (invalid_password_or_iff "Fee collection failed: " m).
    + split; [intros Heq; injection Heq as Heq; exact Heq | intros ->; reflexivity].
    + intros rest Er. discriminate Er.
  - intros apiBaseUrl key address m Hdec Haddr Hbal Ha.
    unfold Lib.collectFees, Lib.collectFees_try. run. rewrite Hl. run. rewrite Hp. run.
    rewrite Hw. run. rewrite Hek. run. rewrite Hdec. run. rewrite Haddr. run.
    rewrite Hbal. unfold invalid_password_or. rewrite Ha, orb_true_r. reflexivity.
Qed.


(** C9 on the example store: a wrong password. *)
Lemma C9_invalid_password_witness :
  Lib.signMessage toy_suite (ex_net 0 (JObj [])) "alice" (jsstr_of_string "wrong-horse")
    "hello" (ex_created 0) = (Ret (failure "Invalid password"), ex_created 0).
Proof.
  apply (proj1 (C9_invalid_password toy_suite (ex_net 0 (JObj [])) "alice"
                  (jsstr_of_string "wrong-horse") (ex_created 0) (ex_wallets_of (ex_created 0))
                  ltac:(vm_compute; discriminate) ltac:(vm_compute; reflexivity)
                  ltac:(vm_compute; reflexivity) ltac:(vm_compute; reflexivity))
                "hello" (ex_created 0)).
  exists "Unsupported state or unable to authenticate data".
  split; vm_compute; reflexivity.
Defined.

(** C9, counterexample: [collectFees] also answers [Invalid password]
    without any exception, under the right password, when the collection
    endpoint answers not [ok] with [error: "Invalid password"]. *)
Lemma C9_api_error_passthrough :
  fst (Lib.collectFees_try toy_suite ex_net_rejecting
         (js_get (ex_wallets_of (ex_created 0)) "alice") ex_password "https://api"
         (ex_created 0)) = Ret (failure "Invalid password") /\
  fst (Lib.collectFees toy_suite ex_net_rejecting "alice" ex_password "https://api"
         (ex_created 0)) = Ret (failure "Invalid password").
Proof. split; vm_compute; reflexivity. Qed.

(* ------------------------------------------------------------------ *)
(** ** Further properties of the wallet code, the launcher and the server *)

Lemma assoc_get_set_eq (k : string) (v : jsval) (fs : list (string * jsval)) :
  assoc_get k (assoc_set k v fs) = Some v.
Proof.
  induction fs as [|[k' v'] fs IH]; cbn [assoc_set assoc_get]; rewrite ?String.eqb_refl;
    [reflexivity|].
  destruct (String.eqb k k') eqn:E; cbn [assoc_get]; rewrite ?String.eqb_refl, ?E;
    [reflexivity|exact IH].
Qed.

Lemma assoc_get_set_ne (k k' : string) (v : jsval) (fs : list (string * jsval)) :
  k <> k' -> assoc_get k (assoc_set k' v fs) = assoc_get k fs.
Proof.
  intros Hne. apply String.eqb_neq in Hne.
  induction fs as [|[q v'] fs IH]; cbn [assoc_set assoc_get]; [rewrite Hne; reflexivity|].
  destruct (String.eqb k' q) eqn:E; cbn [assoc_get].
  - apply String.eqb_eq in E. subst q. rewrite Hne. reflexivity.
  - destruct (String.eqb k q); [reflexivity|exact IH].
Qed.

(** [encrypt] only draws entropy: the files and their faults stay. *)
Lemma encrypt_keeps_store (C : CipherSuite) (text password : jsstr) (s : st) :
  st_fs (snd (encrypt C text password s)) = st_fs s /\
  st_fault (snd (encrypt C text password s)) = st_fault s.
Proof. split; reflexivity. Qed.

(** X2: after [createWallet] adds a new user to an existing store, [getWalletAddress] returns the new address with its creation date, the other users' records are untouched, and [signMessage] under the same password signs with the key that was generated. *)
Theorem X2_create_then_use (C : CipherSuite) (N : Net) (random_wallet : bytes -> jsstr * string)
  (userId : string) (password : jsstr) (s : st) (fs0 : list (string * jsval)) :
  fs_get Lib.DATA_DIR (st_fs s) <> None ->
  fs_get Lib.WALLETS_FILE (st_fs s) = Some (EFile (FJson (JObj fs0))) ->
  st_fault s OpRead Lib.WALLETS_FILE = None ->
  st_fault s OpWrite Lib.WALLETS_FILE = None ->
  js_get (JObj fs0) userId = None ->
  (forall e, well_formed_utf16 (fst (random_wallet e)) = true) ->
  exists s' key address wallets',
    (exists e, random_wallet e = (key, address)) /\
    Lib.createWallet C N random_wallet userId password s =
      (Ret (JObj [("success", JBool true); ("address", JStr address);
                  ("message", JStr "Wallet created! This is where your fees from coin launches will be sent.");
                  ("warning", JStr CREATE_WARNING)]), s') /\
    Lib.getWalletAddress userId s' =
      (Ret (JObj [("success", JBool true); ("address", JStr address);
                  ("createdAt", JStr (iso_now N));
                  ("note", JStr "This is where your fees from coin launches are sent.")]), s') /\
    Lib.loadWallets s' = (Ret wallets', s') /\
    (forall other, other <> userId -> js_get wallets' other = js_get (JObj fs0) other) /\
    (forall message addr signature,
       address_of_key N key = Ret addr ->
       sign_message N key message = Ret signature ->
       Lib.signMessage C N userId password message s' =
         (Ret (JObj [("success", JBool true); ("address", JStr addr);
                     ("message", JStr message); ("signature", JStr signature)]),
          mkst (st_fs s') (st_fault s') (st_rand s') (st_rpos s')
               (st_trace s' ++ [EvSign message])%list)).
Proof.
  intros Hd Hf Hr Hw Hnew Hwf.
  pose proof (Lib_loadWallets_ok s (JObj fs0) Hd Hf Hr) as Hl.
  destruct s as [fs fl rnd pos tr]; cbn [st_fs st_fault] in *.
  unfold Lib.createWallet. run. rewrite Hl. run. cbn [prop]. rewrite Hnew. cbn [truthy]. run.
  match goal with |- context [encrypt C (fst ?w) ?p ?st] =>
    pose proof (encrypt_opens C (fst w) p st (well_formed_units _ (Hwf _))) as [env [s2 [Henc Hopen]]];
    pose proof (encrypt_keeps_store C (fst w) p st) as [Hfs Hfl];
    set (W := w) in *
  end.
  rewrite Henc in Hfs, Hfl. cbn [snd] in Hfs, Hfl. rewrite Henc.
  destruct s2 as [fs2 fl2 rnd2 pos2 tr2]; cbn [st_fs st_fault] in Hfs, Hfl. subst fs2 fl2.
  run. cbn [js_set]. run. unfold Lib.saveWallets, Lib.ensureDataDir. run.
  destruct (fs_get Lib.DATA_DIR fs) eqn:Ed; [|congruence]. run. rewrite Hw. run.
  set (rec := JObj [("address", JStr (snd W)); ("encryptedKey", env); ("createdAt", JStr (iso_now N))])
    in *.
  set (s' := mkst (fs_put Lib.WALLETS_FILE (EFile (FJson (JObj (obj_set fs0 userId rec)))) fs)
               fl rnd2 pos2 (tr2 ++ [EvWrite Lib.WALLETS_FILE
                                      (FJson (JObj (obj_set fs0 userId rec)))])%list).
  assert (Hl' : Lib.loadWallets s' = (Ret (JObj (obj_set fs0 userId rec)), s')).
  { apply Lib_loadWallets_ok; cbn [s' st_fs st_fault].
    - rewrite fs_get_put_ne by reflexivity. rewrite Ed. discriminate.
    - apply fs_get_put_eq.
    - exact Hr. }
  assert (Hget : js_get (JObj (obj_set fs0 userId rec)) userId = Some rec).
  { cbn [js_get]. unfold obj_set. rewrite assoc_get_set_eq. reflexivity. }
  exists s', (fst W), (snd W), (JObj (obj_set fs0 userId rec)).
  split; [|split; [|split; [|split; [|split]]]].
  - eexists. unfold W. apply surjective_pairing.
  - reflexivity.
  - unfold Lib.getWalletAddress. destruct s' as [fs' fl' rnd' pos' tr'] eqn:Es'.
    run. rewrite Hl'. run. cbn [prop]. rewrite Hget. reflexivity.
  - exact Hl'.
  - intros other Ho. cbn [js_get]. unfold obj_set. rewrite assoc_get_set_ne by exact Ho.
    reflexivity.
  - intros message addr signature Haddr Hs.
    unfold Lib.signMessage, Lib.signMessage_try. destruct s' as [fs' fl' rnd' pos' tr'] eqn:Es'.
    run. rewrite Hl'. run. cbn [prop]. rewrite Hget. run. cbn [prop rec js_get assoc_get String.eqb Ascii.eqb Bool.eqb].
    rewrite (Hopen password eq_refl), (utf8_roundtrip (fst W) (Hwf _)). run.
    rewrite Haddr. run. rewrite Hs. reflexivity.
Qed.

Lemma proto_get_in (k : string) : In k object_prototype_props -> proto_get k = Some (JFun k).
Proof.
  intros H. unfold proto_get.
  replace (existsb (String.eqb k) object_prototype_props) with true; [reflexivity|].
  symmetry. apply existsb_exists. exists k. split; [exact H|apply String.eqb_refl].
Qed.

(** X3: a user id that names a property of [Object.prototype] (such as [constructor]) and has no record of its own is taken for an existing wallet: [createWallet] refuses, [hasWallet] says yes, [getWalletAddress] answers without an address and [getDecryptedWallet] answers [Invalid password]; nothing is written. *)
Theorem X3_prototype_user_ids (C : CipherSuite) (N : Net) (random_wallet : bytes -> jsstr * string)
  (userId : string) (password : jsstr) (s : st) (fs0 : list (string * jsval)) :
  Lib.loadWallets s = (Ret (JObj fs0), s) ->
  In userId object_prototype_props ->
  assoc_get userId fs0 = None ->
  Lib.createWallet C N random_wallet userId password s =
    (Ret (failure ("Wallet already exists for this user. Use " ++ q ++ "get" ++ q
                   ++ " to retrieve it.")), s) /\
  Lib.hasWallet userId s = (Ret true, s) /\
  Lib.getWalletAddress userId s =
    (Ret (JObj [("success", JBool true);
                ("note", JStr "This is where your fees from coin launches are sent.")]), s) /\
  Lib.getDecryptedWallet C N userId password s = (Ret (inr (failure "Invalid password")), s).
Proof.
  intros Hl Hin Hown.
  assert (Hg : prop (Some (JObj fs0)) userId = Ret (Some (JFun userId))).
  { cbn [prop js_get]. rewrite Hown, (proto_get_in _ Hin). reflexivity. }
  destruct s as [fs fl rnd pos tr].
  split; [|split; [|split]].
  - unfold Lib.createWallet. run. rewrite Hl. run. rewrite Hg. reflexivity.
  - unfold Lib.hasWallet. run. rewrite Hl. run. rewrite Hg. reflexivity.
  - unfold Lib.getWalletAddress. run. rewrite Hl. run. rewrite Hg. reflexivity.
  - unfold Lib.getDecryptedWallet. run. rewrite Hl. run. rewrite Hg. reflexivity.
Qed.

(** X4: [getBalance] on a stored record reads the balance of the record's address and nothing else; a failed read or an address that is not a string becomes [Failed to get balance: ...]; it never throws. *)
Theorem X4_getBalance (N : Net) (err : option jsval -> string) :
  (forall (userId : string) (s : st) (wallets rec : jsval),
     Lib.loadWallets s = (Ret wallets, s) ->
     js_get wallets userId = Some rec -> truthy (Some rec) = true ->
     Lib.getBalance N err userId s =
       match js_get rec "address" with
       | Some (JStr a) =>
           (Ret (match get_balance N a with
                 | Ret b => JObj [("success", JBool true); ("address", JStr a);
                                  ("balance", JStr (formatEther b)); ("unit", JStr "ETH")]
                 | Thr m => failure ("Failed to get balance: " ++ m)
                 end),
            mkst (st_fs s) (st_fault s) (st_rand s) (st_rpos s)
                 (st_trace s ++ [EvGetBalance a])%list)
       | v => (Ret (failure ("Failed to get balance: " ++ err v)), s)
       end) /\
  (forall (s : st) (rec : jsval),
     Home.loadWallet s = (Ret rec, s) -> truthy (Some rec) = true ->
     Home.getBalance N err s =
       match js_get rec "address" with
       | Some (JStr a) =>
           (Ret (match get_balance N a with
                 | Ret b => JObj [("success", JBool true); ("address", JStr a);
                                  ("balance", JStr (formatEther b)); ("unit", JStr "ETH")]
                 | Thr m => failure ("Failed to get balance: " ++ m)
                 end),
            mkst (st_fs s) (st_fault s) (st_rand s) (st_rpos s)
                 (st_trace s ++ [EvGetBalance a])%list)
       | v => (Ret (failure ("Failed to get balance: " ++ err v)), s)
       end).
Proof.
  split.
  - intros userId [fs fl rnd pos tr] wallets rec Hl Ew Ht.
    unfold Lib.getBalance. run. rewrite Hl. run. rewrite (prop_some _ _ _ Ew). run.
    rewrite Ht. run. rewrite (prop_truthy _ _ Ht). run.
    destruct (js_get rec "address") as [[| | | a | | |]|]; cbn [address_arg]; run;
      try reflexivity.
    destruct (get_balance N a); reflexivity.
  - intros [fs fl rnd pos tr] rec Hl Ht.
    unfold Home.getBalance. run. rewrite Hl. run.
    rewrite Ht. run. rewrite (prop_truthy _ _ Ht). run.
    destruct (js_get rec "address") as [[| | | a | | |]|]; cbn [address_arg]; run;
      try reflexivity.
    destruct (get_balance N a); reflexivity.
Qed.

(** X5: [getDecryptedWallet] on a stored record changes nothing and returns the key and its address, or [Invalid password] for any error of decryption or address derivation. *)
Theorem X5_getDecryptedWallet (C : CipherSuite) (N : Net) (password : jsstr) :
  (forall (userId : string) (s : st) (wallets rec : jsval),
     Lib.loadWallets s = (Ret wallets, s) ->
     js_get wallets userId = Some rec -> truthy (Some rec) = true ->
     Lib.getDecryptedWallet C N userId password s =
       (Ret (match decrypt C (js_get rec "encryptedKey") password with
             | Ret key => match address_of_key N key with
                          | Ret a => inl (key, a)
                          | Thr _ => inr (failure "Invalid password")
                          end
             | Thr _ => inr (failure "Invalid password")
             end), s)) /\
  (forall (s : st) (rec : jsval),
     Home.loadWallet s = (Ret rec, s) -> truthy (Some rec) = true ->
     Home.getDecryptedWallet C N password s =
       (Ret (match decrypt C (js_get rec "encryptedKey") password with
             | Ret key => match address_of_key N key with
                          | Ret a => inl (key, a)
                          | Thr _ => inr (failure "Invalid password")
                          end
             | Thr _ => inr (failure "Invalid password")
             end), s)).
Proof.
  split.
  - intros userId [fs fl rnd pos tr] wallets rec Hl Ew Ht.
    unfold Lib.getDecryptedWallet. run. rewrite Hl. run. rewrite (prop_some _ _ _ Ew). run.
    rewrite Ht. run. rewrite (prop_truthy _ _ Ht). run.
    destruct (decrypt C (js_get rec "encryptedKey") password) as [key|m]; run; [|reflexivity].
    destruct (address_of_key N key); reflexivity.
  - intros [fs fl rnd pos tr] rec Hl Ht.
    unfold Home.getDecryptedWallet. run. rewrite Hl. run.
    rewrite Ht. run. rewrite (prop_truthy _ _ Ht). run.
    destruct (decrypt C (js_get rec "encryptedKey") password) as [key|m]; run; [|reflexivity].
    destruct (address_of_key N key); reflexivity.
Qed.



Lemma token_fields_status (token : jsval) (poolId : string) (l : list (string * jsval)) :
  assoc_get "status" (Home.token_fields token poolId ++ l)%list = assoc_get "status" l.
Proof.
  unfold Home.token_fields.
  destruct (js_get token "id"), (js_get token "name"), (js_get token "symbol"); reflexivity.
Qed.

(** X8: once a token's pool id is computed and its two fee reads succeed, [collect_token] calls the hook's [collectFees] exactly when the ETH fees reach 0.1 ETH or token fees are pending; otherwise the token is [skipped] with no transaction. *)
Theorem X8_collect_token (N : Net) (enc : list (option jsval) -> exc string)
  (hookenv : option string) (key : jsstr) (token : jsval) (poolId : string) (s : st)
  (ethFees tokenFees : Z) :
  Home.computePoolId enc token = Ret poolId ->
  read_contract N (Home.hookAddress hookenv) "getPoolFees" [poolId] = Ret ethFees ->
  read_contract N (Home.hookAddress hookenv) "getPoolTokenFees" [poolId] = Ret tokenFees ->
  exists r,
    Home.collect_token N enc hookenv key token s =
      (Ret r, mkst (st_fs s) (st_fault s) (st_rand s) (st_rpos s)
                (st_trace s ++ [EvRead (Home.hookAddress hookenv) "getPoolFees" [poolId];
                                EvRead (Home.hookAddress hookenv) "getPoolTokenFees" [poolId]]
                 ++ (if (ethFees <? Home.MIN_FEE_COLLECTION) && (tokenFees =? 0) then []
                     else [EvCall (Home.hookAddress hookenv) "collectFees" [poolId]]))%list) /\
    Home.has_status
      (if (ethFees <? Home.MIN_FEE_COLLECTION) && (tokenFees =? 0) then "skipped"
       else match call_contract N key (Home.hookAddress hookenv) "collectFees" [poolId] with
            | Ret _ => "collected"
            | Thr _ => "error"
            end) r = true.
Proof.
  intros Hp H1 H2. destruct s as [fs fl rnd pos tr].
  unfold Home.collect_token. run. rewrite Hp. run. rewrite H1. run. rewrite H2. run.
  cbn [st_fs st_fault st_rand st_rpos st_trace].
  destruct (ethFees <? Home.MIN_FEE_COLLECTION), (tokenFees =? 0); cbn [andb]; run;
    destruct (call_contract N key (Home.hookAddress hookenv) "collectFees" [poolId]); run;
    (eexists; split;
     [rewrite <- !app_assoc; reflexivity
     |unfold Home.has_status; cbn [js_get]; rewrite token_fields_status; reflexivity]).
Qed.

Lemma collect_token_status (N : Net) (enc : list (option jsval) -> exc string)
  (hookenv : option string) (key : jsstr) (token : jsval) (s s' : st) (r : jsval) :
  Home.collect_token N enc hookenv key token s = (Ret r, s') ->
  (exists p, Home.computePoolId enc token = Ret p) /\
  (js_get r "status" = Some (JStr "collected") \/ js_get r "status" = Some (JStr "skipped") \/
   js_get r "status" = Some (JStr "error")).
Proof.
  destruct s as [fs fl rnd pos tr]. unfold Home.collect_token. run.
  destruct (Home.computePoolId enc token) as [p|m]; [|intros E; discriminate E].
  split_exc; intros E; try discriminate E; injection E as <- _;
    (split; [exists p; reflexivity|]);
    destruct (js_get token "id"), (js_get token "name"), (js_get token "symbol"); cbn; auto.
Qed.

(** X9: when the loop over the creator's tokens finishes, it has one result per token, each counted in exactly one of [collected], [skipped] and [error], and every token had a computable pool id. *)
Theorem X9_collect_tokens (N : Net) (enc : list (option jsval) -> exc string)
  (hookenv : option string) (key : jsstr) (ts : list jsval) (s s' : st) (rs : list jsval) :
  Home.collect_tokens N enc hookenv key ts s = (Ret rs, s') ->
  List.length rs = List.length ts /\
  (List.length (filter (Home.has_status "collected") rs)
   + List.length (filter (Home.has_status "skipped") rs)
   + List.length (filter (Home.has_status "error") rs) = List.length rs)%nat /\
  (forall t, In t ts -> exists p, Home.computePoolId enc t = Ret p).
Proof.
  revert s s' rs. induction ts as [|t ts IH]; intros s s' rs E.
  - cbn [Home.collect_tokens] in E. unfold ret in E. injection E as <- _.
    split; [reflexivity|]. split; [reflexivity|]. intros t [].
  - cbn [Home.collect_tokens] in E. unfold bind, ret in E.
    destruct (Home.collect_token N enc hookenv key t s) as [[r|m] s1] eqn:E1;
      [|discriminate E].
    destruct (Home.collect_tokens N enc hookenv key ts s1) as [[rs'|m] s2] eqn:E2;
      [|discriminate E].
    injection E as <- _.
    destruct (IH _ _ _ E2) as [Hlen [Hcount Hpool]].
    destruct (collect_token_status _ _ _ _ _ _ _ _ E1) as [Hp Hst].
    split; [cbn [List.length]; rewrite Hlen; reflexivity|]. split.
    + cbn [filter List.length]. unfold Home.has_status at 1 4 7.
      destruct Hst as [Hs|[Hs|Hs]]; rewrite Hs; cbn; lia.
    + intros t' [<-|Hin]; [exact Hp|exact (Hpool t' Hin)].
Qed.

Lemma prop_not_null (v : jsval) (k : string) :
  v <> JNull -> prop (Some v) k = Ret (js_get v k).
Proof. intros H. destruct v; [congruence|reflexivity..]. Qed.

(** X10: the home-directory [collectFees] with no tokens in the GraphQL reply answers [No tokens found ...]; its only outside effect is the GraphQL request, which carries the lowercased address. *)
Theorem X10_collectFees_no_tokens (C : CipherSuite) (N : Net)
  (enc : list (option jsval) -> exc string) (hookenv : option string)
  (password key : jsstr) (graphqlUrl addr : string) (s : st) (rec result : jsval) :
  Home.loadWallet s = (Ret rec, s) -> truthy (Some rec) = true ->
  decrypt C (js_get rec "encryptedKey") password = Ret key ->
  address_of_key N key = Ret addr ->
  http N graphqlUrl (Some (JObj [("query", JStr Home.TOKENS_QUERY);
                                 ("variables", JObj [("creator", JStr (Home.toLowerCase addr))])]))
    = Ret (true, Ret result) ->
  result <> JNull ->
  truthy (js_get result "errors") = false ->
  (truthy (Home.opt_chain (Home.opt_chain (js_get result "data") "tokens") "items") = false \/
   Home.opt_chain (Home.opt_chain (js_get result "data") "tokens") "items" = Some (JArr [])) ->
  Home.collectFees C N enc hookenv password graphqlUrl s =
    (Ret (failure "No tokens found for this wallet. Launch a token first to earn fees."),
     mkst (st_fs s) (st_fault s) (st_rand s) (st_rpos s)
          (st_trace s ++ [EvFetch graphqlUrl
                            (Some (JObj [("query", JStr Home.TOKENS_QUERY);
                                         ("variables", JObj [("creator", JStr (Home.toLowerCase addr))])]))])%list).
Proof.
  intros Hl Ht Hd Ha Hh Hn He Hi. destruct s as [fs fl rnd pos tr].
  unfold Home.collectFees. run. rewrite Hl. run. rewrite Ht. run.
  rewrite (prop_truthy _ _ Ht). run. rewrite Hd. run. rewrite Ha. run. rewrite Hh. run.
  cbn [fst snd]. run. rewrite (prop_not_null _ _ Hn). run. rewrite He.
  destruct Hi as [Hi|Hi]; rewrite Hi; reflexivity.
Qed.


(** X12: a home wallet file holding a falsy JSON value other than [null] counts as a wallet for [hasWallet], and as no wallet for [getWalletAddress], [signMessage] and [getDecryptedWallet]. *)
Theorem X12_home_falsy_wallet_file (C : CipherSuite) (N : Net) (password : jsstr)
  (message : string) (s : st) (w : jsval) :
  Home.loadWallet s = (Ret w, s) -> w <> JNull -> truthy (Some w) = false ->
  Home.hasWallet s = (Ret true, s) /\
  Home.getWalletAddress s = (Ret (failure NO_WALLET_CREATE), s) /\
  Home.signMessage C N password message s = (Ret (failure "No wallet found"), s) /\
  Home.getDecryptedWallet C N password s = (Ret (inr (failure "No wallet found")), s).
Proof.
  intros Hl Hn Ht. destruct s as [fs fl rnd pos tr].
  split; [|split; [|split]].
  - unfold Home.hasWallet. run. rewrite Hl. run. destruct w; [congruence|reflexivity..].
  - unfold Home.getWalletAddress. run. rewrite Hl. run. rewrite Ht. reflexivity.
  - unfold Home.signMessage. run. rewrite Hl. run. rewrite Ht. reflexivity.
  - unfold Home.getDecryptedWallet. run. rewrite Hl. run. rewrite Ht. reflexivity.
Qed.

(** X13: on a first run with no data directory and no store, the read-only queries create the data directory and answer that there is no wallet. *)
Theorem X13_first_run (C : CipherSuite) (N : Net) (password : jsstr) (message : string) :
  (forall (userId : string) (s : st),
     fs_get Lib.DATA_DIR (st_fs s) = None -> fs_get Lib.WALLETS_FILE (st_fs s) = None ->
     st_fault s OpMkdir Lib.DATA_DIR = None -> proto_get userId = None ->
     let s1 := mkst (fs_put Lib.DATA_DIR EDir (st_fs s)) (st_fault s) (st_rand s) (st_rpos s)
                    (st_trace s ++ [EvMkdir Lib.DATA_DIR])%list in
     Lib.hasWallet userId s = (Ret false, s1) /\
     Lib.getWalletAddress userId s = (Ret (failure NO_WALLET_CREATE), s1) /\
     Lib.signMessage C N userId password message s = (Ret (failure "No wallet found"), s1)) /\
  (forall (s : st),
     fs_get Home.DATA_DIR (st_fs s) = None -> fs_get Home.WALLET_FILE (st_fs s) = None ->
     st_fault s OpMkdir Home.DATA_DIR = None ->
     let s1 := mkst (fs_put Home.DATA_DIR EDir (st_fs s)) (st_fault s) (st_rand s) (st_rpos s)
                    (st_trace s ++ [EvMkdir Home.DATA_DIR])%list in
     Home.hasWallet s = (Ret false, s1) /\
     Home.getWalletAddress s = (Ret (failure NO_WALLET_CREATE), s1) /\
     Home.signMessage C N password message s = (Ret (failure "No wallet found"), s1)).
Proof.
  split.
  - intros userId [fs fl rnd pos tr] Hd Hf Hm Hp s1; cbn [st_fs st_fault] in *.
    assert (Hl : Lib.loadWallets (mkst fs fl rnd pos tr) = (Ret (JObj []), s1)).
    { unfold Lib.loadWallets, Lib.ensureDataDir. run. rewrite Hd. run. rewrite Hm. run.
      rewrite fs_get_put_ne by reflexivity. rewrite Hf. reflexivity. }
    assert (Hg : prop (Some (JObj [])) userId = Ret None).
    { cbn [prop js_get assoc_get]. rewrite Hp. reflexivity. }
    split; [|split].
    + unfold Lib.hasWallet. run. rewrite Hl. unfold s1. run. rewrite Hg. reflexivity.
    + unfold Lib.getWalletAddress. run. rewrite Hl. unfold s1. run. rewrite Hg. reflexivity.
    + unfold Lib.signMessage. run. rewrite Hl. unfold s1. run. rewrite Hg. reflexivity.
  - intros [fs fl rnd pos tr] Hd Hf Hm s1; cbn [st_fs st_fault] in *.
    assert (Hl : Home.loadWallet (mkst fs fl rnd pos tr) = (Ret JNull, s1)).
    { unfold Home.loadWallet, Home.ensureDataDir. run. rewrite Hd. run. rewrite Hm. run.
      rewrite fs_get_put_ne by reflexivity. rewrite Hf. reflexivity. }
    split; [|split].
    + unfold Home.hasWallet. run. rewrite Hl. reflexivity.
    + unfold Home.getWalletAddress. run. rewrite Hl. reflexivity.
    + unfold Home.signMessage. run. rewrite Hl. reflexivity.
Qed.

(** X14: [encrypt] draws 32 then 16 random bytes and nothing else, and writes a salt of 64 hex digits, an IV of 32 and a tag of 32. *)
Theorem X14_envelope_layout (C : CipherSuite) (text password : jsstr) (s : st) :
  exists salt iv tag enc,
    encrypt C text password s =
      (Ret (JObj [("salt", JStr salt); ("iv", JStr iv); ("tag", JStr tag);
                  ("encrypted", JStr enc)]),
       mkst (st_fs s) (st_fault s) (st_rand s) (st_rpos s + 48)
            (st_trace s ++ [EvRandom 32; EvRandom 16])%list) /\
    String.length salt = 64%nat /\ String.length iv = 32%nat /\ String.length tag = 32%nat.
Proof.
  unfold encrypt, bind.
  destruct (randomBytes_spec SALT_LENGTH s) as [salt [E1 [_ Hs]]]. rewrite E1.
  destruct (randomBytes_spec IV_LENGTH
              (mkst (st_fs s) (st_fault s) (st_rand s) (st_rpos s + SALT_LENGTH)
                 (st_trace s ++ [EvRandom SALT_LENGTH])%list)) as [iv [E2 [_ Hi]]].
  rewrite E2. unfold ret. cbn [st_fs st_fault st_rand st_rpos st_trace].
  do 4 eexists. split.
  - rewrite <- app_assoc. unfold SALT_LENGTH, IV_LENGTH.
    replace (st_rpos s + 32 + 16)%nat with (st_rpos s + 48)%nat by lia. reflexivity.
  - rewrite !hex_encode_length, Hs, Hi, gcm_tag_length. repeat split.
Qed.

Lemma spread_absent (k : string) (fs o : list (string * jsval)) :
  assoc_get k fs = None ->
  assoc_get k (fold_left (fun acc kv => assoc_set (fst kv) (snd kv) acc) fs o) = assoc_get k o.
Proof.
  revert o. induction fs as [|[k' v] fs IH]; intros o H; [reflexivity|].
  cbn [assoc_get] in H. destruct (String.eqb k k') eqn:E; [discriminate H|].
  cbn [fold_left fst snd]. rewrite IH by exact H.
  apply assoc_get_set_ne. apply String.eqb_neq. exact E.
Qed.

(** X15: [getApiStatus] never throws and makes one request; any reply whose body parses gives [available: true] merged with the body, even when the response is not OK. *)
Theorem X15_getApiStatus (N : Net) (api : string) (s : st) :
  Launcher.getApiStatus N api s =
    (Ret (match http N (api ++ "/api/status") None with
          | Ret (_, Ret result) => JObj (obj_spread [("available", JBool true)] result)
          | _ => JObj [("available", JBool false);
                       ("message", JStr "Deployment API not available. Launches will run in stub mode.");
                       ("apiUrl", JStr api)]
          end),
     mkst (st_fs s) (st_fault s) (st_rand s) (st_rpos s)
          (st_trace s ++ [EvFetch (api ++ "/api/status") None])%list) /\
  (forall (ok : bool) (fs : list (string * jsval)),
     http N (api ++ "/api/status") None = Ret (ok, Ret (JObj fs)) ->
     assoc_get "available" fs = None ->
     exists fs', fst (Launcher.getApiStatus N api s) = Ret (JObj fs') /\
                 assoc_get "available" fs' = Some (JBool true)).
Proof.
  assert (E : Launcher.getApiStatus N api s =
    (Ret (match http N (api ++ "/api/status") None with
          | Ret (_, Ret result) => JObj (obj_spread [("available", JBool true)] result)
          | _ => JObj [("available", JBool false);
                       ("message", JStr "Deployment API not available. Launches will run in stub mode.");
                       ("apiUrl", JStr api)]
          end),
     mkst (st_fs s) (st_fault s) (st_rand s) (st_rpos s)
          (st_trace s ++ [EvFetch (api ++ "/api/status") None])%list)).
  { destruct s as [fs fl rnd pos tr]. unfold Launcher.getApiStatus. run.
    destruct (http N (api ++ "/api/status") None) as [[ok [result|m]]|m]; reflexivity. }
  split; [exact E|].
  intros ok fs Hh Ha. rewrite E, Hh. cbn [fst obj_spread].
  eexists. split; [reflexivity|]. rewrite spread_absent by exact Ha. reflexivity.
Qed.

Ltac eval_eqb :=
  repeat match goal with
  | |- context [String.eqb ?a ?b] =>
      let v := eval vm_compute in (String.eqb a b) in change (String.eqb a b) with v
  end.

(** X16: the server's [wallet] tool answers [create], [transfer] and [collect-fees] without a password, and [transfer] without a destination or amount, with an error and [isError], before any file or network access. *)
Theorem X16_wallet_tool_guards (C : CipherSuite) (N : Net)
  (random_wallet : bytes -> jsstr * string) (err : option jsval -> string) (api : string)
  (action userId : string) (password : option jsstr) (toAddress amount : option string)
  (s : st) :
  (In action ["create"; "transfer"; "collect-fees"] ->
   (password = None \/ password = Some []) ->
   exists e, Server.wallet_tool C N random_wallet err api action userId password
               toAddress amount s = (Ret (failure e, true), s)) /\
  (action = "transfer" -> (exists u pw, password = Some (u :: pw)) ->
   (toAddress = None \/ toAddress = Some "" \/ amount = None \/ amount = Some "") ->
   Server.wallet_tool C N random_wallet err api action userId password toAddress amount s
   = (Ret (failure "toAddress and amount are required for transfer", true), s)).
Proof.
  destruct s as [fs fl rnd pos tr]. split.
  - intros Hin Hp. unfold Server.wallet_tool.
    destruct Hin as [<-|[<-|[<-|[]]]]; eval_eqb;
      (destruct Hp as [->| ->]; run; eexists; reflexivity).
  - intros -> [u [pw ->]] Hm. unfold Server.wallet_tool. eval_eqb. run.
    destruct Hm as [->|[->|[->| ->]]]; cbn [Server.missing];
      [|eval_eqb| destruct (Server.missing toAddress) |
         eval_eqb; destruct (Server.missing toAddress)]; reflexivity.
Qed.

(** X17: after the home-directory [createWallet] on a data directory with no wallet file, [hasWallet] says yes, [getWalletAddress] returns the new address, and [getDecryptedWallet] under the same password returns the generated key. *)
Theorem X17_home_create_then_use (C : CipherSuite) (N : Net)
  (random_wallet : bytes -> jsstr * string) (password : jsstr) (s : st) :
  fs_get Home.DATA_DIR (st_fs s) <> None ->
  fs_get Home.WALLET_FILE (st_fs s) = None ->
  st_fault s OpRead Home.WALLET_FILE = None ->
  st_fault s OpWrite Home.WALLET_FILE = None ->
  (forall e, well_formed_utf16 (fst (random_wallet e)) = true) ->
  exists s' key address,
    (exists e, random_wallet e = (key, address)) /\
    Home.createWallet C N random_wallet password s =
      (Ret (JObj [("success", JBool true); ("address", JStr address);
                  ("message", JStr "Wallet created! This is where your fees from coin launches will be sent.");
                  ("warning", JStr CREATE_WARNING)]), s') /\
    Home.hasWallet s' = (Ret true, s') /\
    Home.getWalletAddress s' =
      (Ret (JObj [("success", JBool true); ("address", JStr address);
                  ("createdAt", JStr (iso_now N));
                  ("note", JStr "This is where your fees from coin launches are sent.")]), s') /\
    (forall addr, address_of_key N key = Ret addr ->
       Home.getDecryptedWallet C N password s' = (Ret (inl (key, addr)), s')).
Proof.
  intros Hd Hf Hr Hw Hwf.
  destruct s as [fs fl rnd pos tr]; cbn [st_fs st_fault] in *.
  unfold Home.createWallet, Home.loadWallet, Home.ensureDataDir. run.
  destruct (fs_get Home.DATA_DIR fs) eqn:Ed; [|congruence]. run. rewrite Hf. run.
  cbn [truthy]. run.
  match goal with |- context [encrypt C (fst ?w) ?p ?st] =>
    pose proof (encrypt_opens C (fst w) p st (well_formed_units _ (Hwf _))) as [env [s2 [Henc Hopen]]];
    pose proof (encrypt_keeps_store C (fst w) p st) as [Hfs Hfl];
    set (W := w) in *
  end.
  rewrite Henc in Hfs, Hfl. cbn [snd] in Hfs, Hfl. rewrite Henc.
  destruct s2 as [fs2 fl2 rnd2 pos2 tr2]; cbn [st_fs st_fault] in Hfs, Hfl. subst fs2 fl2.
  unfold Home.saveWallet, Home.ensureDataDir. run. rewrite Ed. run. rewrite Hw. run.
  set (rec := JObj [("address", JStr (snd W)); ("encryptedKey", env); ("createdAt", JStr (iso_now N))])
    in *.
  set (s' := mkst (fs_put Home.WALLET_FILE (EFile (FJson rec)) fs)
               fl rnd2 pos2 (tr2 ++ [EvWrite Home.WALLET_FILE (FJson rec)])%list).
  assert (Hl' : Home.loadWallet s' = (Ret rec, s')).
  { apply Home_loadWallet_ok; cbn [s' st_fs st_fault].
    - rewrite fs_get_put_ne by reflexivity. rewrite Ed. discriminate.
    - apply fs_get_put_eq.
    - exact Hr. }
  exists s', (fst W), (snd W).
  split; [|split; [|split; [|split]]].
  - eexists. unfold W. apply surjective_pairing.
  - reflexivity.
  - unfold Home.hasWallet. destruct s' as [fs' fl' rnd' pos' tr'] eqn:Es'.
    run. rewrite Hl'. reflexivity.
  - unfold Home.getWalletAddress. destruct s' as [fs' fl' rnd' pos' tr'] eqn:Es'.
    run. rewrite Hl'. reflexivity.
  - intros addr Haddr.
    unfold Home.getDecryptedWallet. destruct s' as [fs' fl' rnd' pos' tr'] eqn:Es'.
    run. rewrite Hl'. run. cbn [prop rec js_get assoc_get String.eqb Ascii.eqb Bool.eqb].
    rewrite (Hopen password eq_refl), (utf8_roundtrip (fst W) (Hwf _)). run.
    rewrite Haddr. reflexivity.
Qed.

Lemma X2_create_then_use_witness :
  exists s', fst (Lib.getWalletAddress "bob" s') =
    Ret (JObj [("success", JBool true); ("address", JStr EX_ADDRESS);
               ("createdAt", JStr "2026-10-18T00:00:00.000Z");
               ("note", JStr "This is where your fees from coin launches are sent.")]).
Proof.
  destruct (X2_create_then_use toy_suite (ex_net 0 (JObj [])) ex_random_wallet "bob" ex_password
              (ex_created 0)
              (match ex_wallets_of (ex_created 0) with JObj fs => fs | _ => [] end)
              ltac:(vm_compute; discriminate) ltac:(vm_compute; reflexivity)
              ltac:(vm_compute; reflexivity) ltac:(vm_compute; reflexivity)
              ltac:(vm_compute; reflexivity) ltac:(intros e; vm_compute; reflexivity))
    as [s' [key [address [w' [[e He] [_ [Hg _]]]]]]].
  unfold ex_random_wallet in He. injection He as _ Ha. subst address.
  exists s'. rewrite Hg. reflexivity.
Defined.

Lemma X3_prototype_user_ids_witness :
  Lib.hasWallet "constructor" (ex_created 0) = (Ret true, ex_created 0) /\
  Lib.getDecryptedWallet toy_suite (ex_net 0 (JObj [])) "constructor" ex_password (ex_created 0)
  = (Ret (inr (failure "Invalid password")), ex_created 0).
Proof.
  destruct (X3_prototype_user_ids toy_suite (ex_net 0 (JObj [])) ex_random_wallet "constructor"
              ex_password (ex_created 0)
              (match ex_wallets_of (ex_created 0) with JObj fs => fs | _ => [] end)
              ltac:(vm_compute; reflexivity) ltac:(cbn; left; reflexivity)
              ltac:(vm_compute; reflexivity)) as [_ [H1 [_ H2]]].
  split; [exact H1|exact H2].
Defined.

Lemma X4_getBalance_witness :
  fst (Lib.getBalance (ex_net 1000000000000000000 (JObj [])) (fun _ => "invalid address")
         "alice" (ex_created 0))
  = Ret (JObj [("success", JBool true); ("address", JStr EX_ADDRESS);
               ("balance", JStr "1.0"); ("unit", JStr "ETH")]).
Proof.
  rewrite (proj1 (X4_getBalance (ex_net 1000000000000000000 (JObj [])) (fun _ => "invalid address"))
             "alice" (ex_created 0) (ex_wallets_of (ex_created 0))
             (match js_get (ex_wallets_of (ex_created 0)) "alice" with Some r => r | None => JNull end)
             ltac:(vm_compute; reflexivity) ltac:(vm_compute; reflexivity)
             ltac:(vm_compute; reflexivity)).
  vm_compute. reflexivity.
Defined.

Lemma X5_getDecryptedWallet_witness :
  Lib.getDecryptedWallet toy_suite (ex_net 0 (JObj [])) "alice" ex_password (ex_created 0)
  = (Ret (inl (ex_key, EX_ADDRESS)), ex_created 0) /\
  Lib.getDecryptedWallet toy_suite (ex_net 0 (JObj [])) "alice" (jsstr_of_string "wrong")
    (ex_created 0)
  = (Ret (inr (failure "Invalid password")), ex_created 0).
Proof.
  split.
  - rewrite (proj1 (X5_getDecryptedWallet toy_suite (ex_net 0 (JObj [])) ex_password)
               "alice" (ex_created 0) (ex_wallets_of (ex_created 0))
               (match js_get (ex_wallets_of (ex_created 0)) "alice" with Some r => r | None => JNull end)
               ltac:(vm_compute; reflexivity) ltac:(vm_compute; reflexivity)
               ltac:(vm_compute; reflexivity)).
    vm_compute. reflexivity.
  - rewrite (proj1 (X5_getDecryptedWallet toy_suite (ex_net 0 (JObj [])) (jsstr_of_string "wrong"))
               "alice" (ex_created 0) (ex_wallets_of (ex_created 0))
               (match js_get (ex_wallets_of (ex_created 0)) "alice" with Some r => r | None => JNull end)
               ltac:(vm_compute; reflexivity) ltac:(vm_compute; reflexivity)
               ltac:(vm_compute; reflexivity)).
    vm_compute. reflexivity.
Defined.



Lemma X8_collect_token_witness :
  exists r,
    Home.collect_token (ex_net 0 (JObj [])) (fun _ => Ret "0xpool") None ex_key (JObj []) ex_state
    = (Ret r, mkst [] (fun _ _ => None) (fun _ => Byte.x2a) 0
                   [EvRead (Home.hookAddress None) "getPoolFees" ["0xpool"];
                    EvRead (Home.hookAddress None) "getPoolTokenFees" ["0xpool"]]) /\
    Home.has_status "skipped" r = true.
Proof.
  destruct (X8_collect_token (ex_net 0 (JObj [])) (fun _ => Ret "0xpool") None ex_key (JObj [])
              "0xpool" ex_state 0 0 ltac:(vm_compute; reflexivity) ltac:(vm_compute; reflexivity)
              ltac:(vm_compute; reflexivity)) as [r [H1 H2]].
  exists r. split; [exact H1|exact H2].
Defined.

Lemma X9_collect_tokens_witness :
  List.length (match fst (Home.collect_tokens (ex_net 0 (JObj [])) (fun _ => Ret "0xpool") None
                            ex_key [JObj []; JObj []] ex_state) with
               | Ret rs => rs | Thr _ => [] end) = 2%nat.
Proof.
  apply (proj1 (X9_collect_tokens (ex_net 0 (JObj [])) (fun _ => Ret "0xpool") None ex_key
                  [JObj []; JObj []] ex_state
                  (snd (Home.collect_tokens (ex_net 0 (JObj [])) (fun _ => Ret "0xpool") None
                          ex_key [JObj []; JObj []] ex_state))
                  _ ltac:(vm_compute; reflexivity))).
Defined.

Lemma X10_collectFees_no_tokens_witness :
  fst (Home.collectFees toy_suite
         (ex_net 0 (JObj [("data", JObj [("tokens", JObj [("items", JArr [])])])]))
         (fun _ => Ret "0xpool") None ex_password "https://graphql" ex_home_created)
  = Ret (failure "No tokens found for this wallet. Launch a token first to earn fees.").
Proof.
  rewrite (X10_collectFees_no_tokens toy_suite
             (ex_net 0 (JObj [("data", JObj [("tokens", JObj [("items", JArr [])])])]))
             (fun _ => Ret "0xpool") None ex_password ex_key "https://graphql" EX_ADDRESS
             ex_home_created (ex_home_wallet_of ex_home_created)
             (JObj [("data", JObj [("tokens", JObj [("items", JArr [])])])])
             ltac:(vm_compute; reflexivity) ltac:(vm_compute; reflexivity)
             ltac:(vm_compute; reflexivity) ltac:(vm_compute; reflexivity)
             ltac:(vm_compute; reflexivity) ltac:(discriminate) ltac:(vm_compute; reflexivity)
             ltac:(right; vm_compute; reflexivity)).
  reflexivity.
Defined.


Lemma X12_home_falsy_wallet_file_witness :
  fst (Home.hasWallet (mkst [(Home.DATA_DIR, EDir); (Home.WALLET_FILE, EFile (FJson (JBool false)))]
                            (fun _ _ => None) (fun _ => Byte.x2a) 0 [])) = Ret true /\
  fst (Home.getWalletAddress
         (mkst [(Home.DATA_DIR, EDir); (Home.WALLET_FILE, EFile (FJson (JBool false)))]
               (fun _ _ => None) (fun _ => Byte.x2a) 0 [])) = Ret (failure NO_WALLET_CREATE).
Proof.
  destruct (X12_home_falsy_wallet_file toy_suite (ex_net 0 (JObj [])) ex_password "hi"
              (mkst [(Home.DATA_DIR, EDir); (Home.WALLET_FILE, EFile (FJson (JBool false)))]
                    (fun _ _ => None) (fun _ => Byte.x2a) 0 []) (JBool false)
              ltac:(vm_compute; reflexivity) ltac:(discriminate) ltac:(reflexivity))
    as [H1 [H2 _]].
  rewrite H1, H2. split; reflexivity.
Defined.

Lemma X13_first_run_witness :
  Lib.hasWallet "alice" ex_state
  = (Ret false, mkst [(Lib.DATA_DIR, EDir)] (fun _ _ => None) (fun _ => Byte.x2a) 0
                     [EvMkdir Lib.DATA_DIR]).
Proof.
  apply (proj1 (proj1 (X13_first_run toy_suite (ex_net 0 (JObj [])) ex_password "hi")
                  "alice" ex_state eq_refl eq_refl eq_refl ltac:(vm_compute; reflexivity))).
Defined.

Lemma X15_getApiStatus_witness :
  exists fs', fst (Launcher.getApiStatus ex_net_rejecting "https://api" ex_state) = Ret (JObj fs') /\
              assoc_get "available" fs' = Some (JBool true).
Proof.
  apply (proj2 (X15_getApiStatus ex_net_rejecting "https://api" ex_state) false
           [("error", JStr "Invalid password")] ltac:(reflexivity) ltac:(reflexivity)).
Defined.

Lemma X16_wallet_tool_guards_witness :
  exists e, Server.wallet_tool toy_suite (ex_net 0 (JObj [])) ex_random_wallet
              (fun _ => "invalid address") "https://api" "transfer" "alice" None
              (Some EX_DEST) (Some "1") (ex_created 0)
            = (Ret (failure e, true), ex_created 0).
Proof.
  apply (proj1 (X16_wallet_tool_guards toy_suite (ex_net 0 (JObj [])) ex_random_wallet
                  (fun _ => "invalid address") "https://api" "transfer" "alice" None
                  (Some EX_DEST) (Some "1") (ex_created 0))).
  - cbn. right. left. reflexivity.
  - left. reflexivity.
Defined.

Lemma X17_home_create_then_use_witness :
  exists s', Home.getDecryptedWallet toy_suite (ex_net 0 (JObj [])) ex_password s'
             = (Ret (inl (ex_key, EX_ADDRESS)), s').
Proof.
  destruct (X17_home_create_then_use toy_suite (ex_net 0 (JObj [])) ex_random_wallet ex_password
              (mkst [(Home.DATA_DIR, EDir)] (fun _ _ => None) (fun _ => Byte.x2a) 0 [])
              ltac:(vm_compute; discriminate) ltac:(vm_compute; reflexivity)
              ltac:(reflexivity) ltac:(reflexivity) ltac:(intros e; vm_compute; reflexivity))
    as [s' [key [address [[e He] [_ [_ [_ Hd]]]]]]].
  unfold ex_random_wallet in He. injection He as Hk _. subst key.
  exists s'. apply Hd. reflexivity.
Defined.
